(** * igel: the command workflow of [IgelModel] (src/igel/igel.py)

    A shallow embedding of the orchestrator class [IgelModel]: its
    constructor and the three command operations [fit], [evaluate] and
    [predict], together with the helpers they call.  Python exceptions
    become an explicit [outcome]; the filesystem is a finite map from
    path strings to typed file contents; the logger is an output stream
    of entries.  The collaborators that live outside igel.py (the model
    registry, the estimators, the metric evaluator, [extract_params] and
    [_reshape]) are parameters of the development; [read_yaml] is
    modelled as the read of a parsed configuration file. *)

From Stdlib Require Import ZArith Lia.
From stdpp Require Import gmap strings list fin_maps.

Set Default Proof Using "Type".
Open Scope string_scope.

(** ** Python values, exceptions and log records *)

(** The values that travel through configuration, command-line arguments
    and description.json: [None], a string, or a list of strings. *)
Inductive pyval :=
  | PNone
  | PStr (s : string)
  | PList (items : list string).

(** Python truthiness ([if not f], [if not model]). *)
Definition truthy (v : pyval) : bool :=
  match v with
  | PNone => false
  | PStr s => negb (String.eqb s "")
  | PList l => match l with [] => false | _ => true end
  end.

(** The exception classes the orchestrator can meet.  All of them derive
    from [Exception]; [FileNotFoundError], [IsADirectoryError],
    [NotADirectoryError] and [FileExistsError] derive from [OSError]. *)
Inductive exn :=
  | AssertionError (msg : string)
  | Exception (msg : string)
  | TypeError (msg : string)
  | AttributeError (msg : string)
  | KeyError (key : string)
  | IndexError
  | ValueError (msg : string)
  | FileNotFoundError (path : string)
  | IsADirectoryError (path : string)
  | NotADirectoryError (path : string)
  | FileExistsError (path : string)
  | DecodeError (path : string)
  | CollaboratorError (msg : string).

Definition is_OSError (e : exn) : bool :=
  match e with
  | FileNotFoundError _ | IsADirectoryError _
  | NotADirectoryError _ | FileExistsError _ => true
  | _ => false
  end.

Definition is_FileNotFoundError (e : exn) : bool :=
  match e with FileNotFoundError _ => true | _ => false end.

(** [except Exception] matches every class above. *)
Definition is_Exception (e : exn) : bool := true.

Inductive outcome (A : Type) :=
  | Returned (a : A)
  | Raised (e : exn).
Arguments Returned {A} a.
Arguments Raised {A} e.

Definition obind {A B} (m : outcome A) (k : A → outcome B) : outcome B :=
  match m with
  | Returned a => k a
  | Raised e => Raised e
  end.

Inductive level := INFO | WARNING | ERROR.

(** One record of the logger: its level, the fixed text of the message
    (format arguments are left out) and, for records written from an
    [except] block, the exception being handled. *)
Record log_entry := LogEntry {
  entry_level : level;
  entry_text : string;
  entry_exc : option exn
}.

(** ** Paths *)

(** [Path(a) / b]. *)
Definition path_join (dir name : string) : string := dir +:+ "/" +:+ name.
Infix "</>" := path_join (at level 40, left associativity).



(** ** Arrays and data frames *)

Section Data.
Context {cell : Type}.

(** A numpy array as the orchestrator sees it: one-dimensional, or
    two-dimensional with its row count and its columns (column [i] is
    the slice [a[:, i]]). *)
Inductive ndarray :=
  | Arr1 (v : list cell)
  | Arr2 (rows : nat) (cols : list (list cell)).

(** [len(a.shape)] *)
Definition ndim (a : ndarray) : nat :=
  match a with Arr1 _ => 1 | Arr2 _ _ => 2 end.

(** [a.shape[0]] *)
Definition array_rows (a : ndarray) : nat :=
  match a with Arr1 v => length v | Arr2 n _ => n end.

(** [a[:, i]]; only called on arrays of more than one dimension. *)
Definition column_slice (a : ndarray) (i : nat) : outcome (list cell) :=
  match a with
  | Arr1 _ => Raised IndexError
  | Arr2 _ cols =>
      match cols !! i with
      | Some c => Returned c
      | None => Raised IndexError
      end
  end.

(** Modelled from the spec: [igel.utils._reshape] is not part of
    igel.py.  "If an array has fewer than 2 dimensions, add a trailing
    dimension so that downstream model calls receive a uniform 2-D
    shape". *)
Definition reshape_trailing (a : ndarray) : ndarray :=
  match a with
  | Arr1 v => Arr2 (length v) [v]
  | Arr2 _ _ => a
  end.

(** A pandas table: the length of its row index and its labelled
    columns, in order. *)
Record DataFrame := {
  df_rows : nat;
  df_cols : list (string * list cell)
}.

(** [list(dataset.columns)] *)
Definition frame_columns (df : DataFrame) : list string := (df_cols df).*1.

(** [dataset.to_numpy()] *)
Definition to_numpy (df : DataFrame) : ndarray :=
  Arr2 (df_rows df) ((df_cols df).*2).

(** [dataset.pop(x)]: returns what [dataset[x]] selects (every column
    labelled [x]) and deletes it from the table; [KeyError] when no
    column has that label. *)
Definition pop (x : string) (df : DataFrame)
    : outcome (list (string * list cell) * DataFrame) :=
  match filter (λ c, c.1 = x) (df_cols df) with
  | [] => Raised (KeyError x)
  | hit =>
      Returned (hit, {| df_rows := df_rows df;
                        df_cols := filter (λ c, c.1 ≠ x) (df_cols df) |})
  end.

(** [[dataset.pop(x) for x in target]]: the pops run left to right on
    the same table. *)
Fixpoint pop_each (xs : list string) (df : DataFrame)
    : outcome (list (string * list cell) * DataFrame) :=
  match xs with
  | [] => Returned ([], df)
  | x :: xs' =>
      match pop x df with
      | Raised e => Raised e
      | Returned (hit, df') =>
          match pop_each xs' df' with
          | Raised e => Raised e
          | Returned (rest, df'') => Returned ((hit ++ rest)%list, df'')
          end
      end
  end.

(** [pd.concat(series, axis=1)] of columns taken from a table with
    [rows] rows. *)
Definition concat_columns (rows : nat) (cs : list (string * list cell))
    : DataFrame :=
  {| df_rows := rows; df_cols := cs |}.

(** A Python dict with string keys as an insertion-ordered association
    list: assigning to a key that is present keeps its position and
    replaces its value. *)
Fixpoint dict_set {V} (k : string) (v : V) (d : list (string * V))
    : list (string * V) :=
  match d with
  | [] => [(k, v)]
  | (k', v') :: d' =>
      if decide (k' = k) then (k, v) :: d' else (k', v') :: dict_set k v d'
  end.

Definition dict_of_items {V} (kvs : list (string * V)) : list (string * V) :=
  fold_left (λ d kv, dict_set kv.1 kv.2 d) kvs [].

(** [len(self.target)] and [self.target[i]] for [i] in range: a list
    gives its items, a string its characters, [None] has no [len]. *)
Definition target_items (t : pyval) : outcome (list string) :=
  match t with
  | PNone => Raised (TypeError "object of type 'NoneType' has no len()")
  | PStr s => Returned ((λ c, String c "") <$> String.list_ascii_of_string s)
  | PList l => Returned l
  end.

(** The value paired with the [i]-th target in [predict]:
    [y_pred[:, i] if len(y_pred.shape) > 1 else y_pred]. *)
Definition paired_column (y_pred : ndarray) (i : nat) : outcome (list cell) :=
  if bool_decide (1 < ndim y_pred) then column_slice y_pred i
  else match y_pred with
       | Arr1 v => Returned v
       | Arr2 _ _ => Raised IndexError
       end.

(** The items of the dict comprehension, evaluated left to right. *)
Fixpoint paired_items (keys : list string) (i : nat) (y_pred : ndarray)
    : outcome (list (string * list cell)) :=
  match keys with
  | [] => Returned []
  | k :: keys' =>
      match paired_column y_pred i with
      | Raised e => Raised e
      | Returned c =>
          match paired_items keys' (S i) y_pred with
          | Raised e => Raised e
          | Returned rest => Returned ((k, c) :: rest)
          end
      end
  end.

(** [pd.DataFrame.from_dict(d)] for the dict that [predict] builds.  Its
    values are slices of one array, or that array itself, so they are
    equally long: the row index of the table gets the length of the
    columns, and an empty dict gives the empty table. *)
Definition from_dict (d : list (string * list cell)) : DataFrame :=
  {| df_rows := match d with [] => 0 | kc :: _ => length kc.2 end;
     df_cols := d |}.

(** [{self.target[i]: ... for i in range(len(self.target))}] followed
    by [pd.DataFrame.from_dict]. *)
Definition predictions_frame (target : pyval) (y_pred : ndarray)
    : outcome DataFrame :=
  obind (target_items target) (λ keys,
  obind (paired_items keys 0 y_pred) (λ items,
  Returned (from_dict (dict_of_items items)))).

(** The split that data preparation is specified to produce, stated
    on the table: the columns labelled by the targets, target by
    target in the order of the list, and the columns that carry no
    target label, in the order of the table. *)
Definition labelled (t : string) (df : DataFrame)
    : list (string * list cell) :=
  filter (λ c, c.1 = t) (df_cols df).

Definition target_part (tg : list string) (df : DataFrame)
    : list (string * list cell) :=
  concat ((λ t, labelled t df) <$> tg).

Definition feature_part (tg : list string) (df : DataFrame)
    : list (string * list cell) :=
  filter (λ c, c.1 ∉ tg) (df_cols df).

Definition targets_frame (tg : list string) (df : DataFrame) : DataFrame :=
  {| df_rows := df_rows df; df_cols := target_part tg df |}.

Definition features_frame (tg : list string) (df : DataFrame) : DataFrame :=
  {| df_rows := df_rows df; df_cols := feature_part tg df |}.

End Data.
Arguments ndarray : clear implicits.
Arguments DataFrame : clear implicits.

(** ** The filesystem, the collaborators and the orchestrator object *)

Section Orchestrator.
Context {cell model_class model_state yaml metrics kwargs : Type}.

(** An estimator instance: its class and its (mutable) fitted state. *)
Record estimator := {
  est_class : model_class;
  est_state : model_state
}.

(** What a path of the filesystem holds.  A file is typed by the writer
    that produced it and is read back only by the reader of that
    format; any other reader raises its decode error. *)
Inductive file :=
  | Dir
  | Pickle (m : estimator)
  | Json (doc : gmap string pyval)
  | MetricsJson (r : metrics)
  | Csv (df : DataFrame cell)
  | CsvIndexed (df : DataFrame cell)
  | Yaml (y : yaml).

(** Everything igel.py imports or reads from the process: the working
    directory, [igel.data.models_dict], the estimators' capabilities,
    [igel.data.evaluate_model], [igel.utils.extract_params],
    [igel.utils._reshape], and the cell pandas shows for row number
    [i] of a table saved with its index. *)
Record Collaborators := {
  cwd : string;
  models_dict : gmap string (gmap string model_class);
  class_name : model_class → string;
  class_new : model_class → model_state;
  model_fit : estimator → ndarray cell → ndarray cell → outcome model_state;
  model_predict : estimator → option (ndarray cell) → outcome (ndarray cell);
  evaluate_model :
    pyval → ndarray cell → ndarray cell → kwargs → outcome metrics;
  extract_params : yaml → outcome (pyval * pyval * pyval);
  _reshape : ndarray cell → ndarray cell;
  index_cell : nat → cell
}.

Variable E : Collaborators.

(** The attributes of an [IgelModel] instance.  [algorithm] and
    [yaml_config] are assigned only by the fit branch of the
    constructor: [None] stands for an attribute that was never set. *)
Record IgelModel := {
  command : pyval;
  model_path : pyval;
  model : option estimator;
  target : pyval;
  features : option (list string);
  res_path : string;
  data_path : pyval;
  model_definition_file : pyval;
  yaml_config : option yaml;
  model_type : pyval;
  algorithm : option pyval
}.

Definition commands : list string := ["fit"; "evaluate"; "predict"].
Definition model_types : list string := ["regression"; "classification"].
Definition stats_dir : string := "model_results".
Definition save_to : string := "model.sav".

Record world := {
  self : IgelModel;
  files : gmap string file
}.

(** A computation that may read and mutate the object and the
    filesystem, emit log records, and return or raise. *)
Definition Run (A : Type) : Type :=
  world → outcome A * world * list log_entry.

Definition ret {A} (a : A) : Run A := λ w, (Returned a, w, []).

Definition raise {A} (e : exn) : Run A := λ w, (Raised e, w, []).

Definition bind {A B} (m : Run A) (k : A → Run B) : Run B := λ w,
  match m w with
  | (Returned a, w1, l1) =>
      match k a w1 with
      | (r, w2, l2) => (r, w2, (l1 ++ l2)%list)
      end
  | (Raised e, w1, l1) => (Raised e, w1, l1)
  end.

Definition lift {A} (o : outcome A) : Run A := λ w, (o, w, []).

Definition logger (lvl : level) (text : string) (exc : option exn)
    : Run unit :=
  λ w, (Returned tt, w, [LogEntry lvl text exc]).

Definition get_self : Run IgelModel := λ w, (Returned (self w), w, []).

Definition modify_self (f : IgelModel → IgelModel) : Run unit :=
  λ w, (Returned tt, {| self := f (self w); files := files w |}, []).

Definition get_files : Run (gmap string file) :=
  λ w, (Returned (files w), w, []).

Definition put_files (fs : gmap string file) : Run unit :=
  λ w, (Returned tt, {| self := self w; files := fs |}, []).

(** [try: body / except <catches> as e: handler e / else: orelse]. *)
Definition try_except_else {A B} (body : Run A) (catches : exn → bool)
    (handler : exn → Run B) (orelse : A → Run B) : Run B := λ w,
  match body w with
  | (Returned a, w1, l1) =>
      match orelse a w1 with
      | (r, w2, l2) => (r, w2, (l1 ++ l2)%list)
      end
  | (Raised e, w1, l1) =>
      if catches e then
        match handler e w1 with
        | (r, w2, l2) => (r, w2, (l1 ++ l2)%list)
        end
      else (Raised e, w1, l1)
  end.

(** [try: body / except <catches> as e: handler e]. *)
Definition try_except {A} (body : Run A) (catches : exn → bool)
    (handler : exn → Run A) : Run A :=
  try_except_else body catches handler ret.


(** Attribute assignment, [self.<field> = v]. *)
Definition set_command (v : pyval) (s : IgelModel) : IgelModel :=
  {| command := v; model_path := model_path s; model := model s;
     target := target s; features := features s; res_path := res_path s;
     data_path := data_path s;
     model_definition_file := model_definition_file s;
     yaml_config := yaml_config s; model_type := model_type s;
     algorithm := algorithm s |}.
Definition set_model_path (v : pyval) (s : IgelModel) : IgelModel :=
  {| command := command s; model_path := v; model := model s;
     target := target s; features := features s; res_path := res_path s;
     data_path := data_path s;
     model_definition_file := model_definition_file s;
     yaml_config := yaml_config s; model_type := model_type s;
     algorithm := algorithm s |}.
Definition set_model (v : option estimator) (s : IgelModel) : IgelModel :=
  {| command := command s; model_path := model_path s; model := v;
     target := target s; features := features s; res_path := res_path s;
     data_path := data_path s;
     model_definition_file := model_definition_file s;
     yaml_config := yaml_config s; model_type := model_type s;
     algorithm := algorithm s |}.
Definition set_target (v : pyval) (s : IgelModel) : IgelModel :=
  {| command := command s; model_path := model_path s; model := model s;
     target := v; features := features s; res_path := res_path s;
     data_path := data_path s;
     model_definition_file := model_definition_file s;
     yaml_config := yaml_config s; model_type := model_type s;
     algorithm := algorithm s |}.
Definition set_features (v : option (list string)) (s : IgelModel) : IgelModel :=
  {| command := command s; model_path := model_path s; model := model s;
     target := target s; features := v; res_path := res_path s;
     data_path := data_path s;
     model_definition_file := model_definition_file s;
     yaml_config := yaml_config s; model_type := model_type s;
     algorithm := algorithm s |}.
Definition set_res_path (v : string) (s : IgelModel) : IgelModel :=
  {| command := command s; model_path := model_path s; model := model s;
     target := target s; features := features s; res_path := v;
     data_path := data_path s;
     model_definition_file := model_definition_file s;
     yaml_config := yaml_config s; model_type := model_type s;
     algorithm := algorithm s |}.
Definition set_data_path (v : pyval) (s : IgelModel) : IgelModel :=
  {| command := command s; model_path := model_path s; model := model s;
     target := target s; features := features s; res_path := res_path s;
     data_path := v; model_definition_file := model_definition_file s;
     yaml_config := yaml_config s; model_type := model_type s;
     algorithm := algorithm s |}.
Definition set_model_definition_file (v : pyval) (s : IgelModel) : IgelModel :=
  {| command := command s; model_path := model_path s; model := model s;
     target := target s; features := features s; res_path := res_path s;
     data_path := data_path s; model_definition_file := v;
     yaml_config := yaml_config s; model_type := model_type s;
     algorithm := algorithm s |}.
Definition set_yaml_config (v : option yaml) (s : IgelModel) : IgelModel :=
  {| command := command s; model_path := model_path s; model := model s;
     target := target s; features := features s; res_path := res_path s;
     data_path := data_path s;
     model_definition_file := model_definition_file s; yaml_config := v;
     model_type := model_type s; algorithm := algorithm s |}.
Definition set_model_type (v : pyval) (s : IgelModel) : IgelModel :=
  {| command := command s; model_path := model_path s; model := model s;
     target := target s; features := features s; res_path := res_path s;
     data_path := data_path s;
     model_definition_file := model_definition_file s;
     yaml_config := yaml_config s; model_type := v;
     algorithm := algorithm s |}.
Definition set_algorithm (v : option pyval) (s : IgelModel) : IgelModel :=
  {| command := command s; model_path := model_path s; model := model s;
     target := target s; features := features s; res_path := res_path s;
     data_path := data_path s;
     model_definition_file := model_definition_file s;
     yaml_config := yaml_config s; model_type := model_type s;
     algorithm := v |}.

Declare Scope run_scope.
Delimit Scope run_scope with run.
Local Notation "x ← y ; z" := (bind y (λ x, z))
  (at level 20, y at level 100, z at level 200, only parsing) : run_scope.
Local Notation "' x ← y ; z" := (bind y (λ x, z))
  (at level 20, x pattern, y at level 100, z at level 200, only parsing)
  : run_scope.
Local Notation "x ;; z" := (bind x (λ _, z))
  (at level 100, z at level 200, only parsing, right associativity)
  : run_scope.
Local Open Scope run_scope.

(** *** Filesystem and library calls *)

(** [open(p, 'r')] / [open(p, 'rb')].  An absent path is reported as
    [FileNotFoundError]; whether a regular file lies on the way to it is
    not looked at (see [no_file_above]). *)
Definition open_read (p : string) : Run file :=
  fs ← get_files;
  match fs !! p with
  | None => raise (FileNotFoundError p)
  | Some Dir => raise (IsADirectoryError p)
  | Some f => ret f
  end.

(** [open(dir / name, 'w')] followed by a complete write of
    [content]: the directory has to exist and the path must not be a
    directory itself. *)
Definition open_write (dir name : string) (content : file) : Run unit :=
  fs ← get_files;
  match fs !! dir with
  | None => raise (FileNotFoundError (dir </> name))
  | Some Dir =>
      match fs !! (dir </> name) with
      | Some Dir => raise (IsADirectoryError (dir </> name))
      | _ => put_files (<[dir </> name := content]> fs)
      end
  | Some _ => raise (NotADirectoryError (dir </> name))
  end.

(** [os.path.exists(p)] *)
Definition os_path_exists (p : string) : Run bool :=
  fs ← get_files;
  ret (bool_decide (is_Some (fs !! p))).

(** [os.mkdir(parent / name)] *)
Definition os_mkdir (parent name : string) : Run unit :=
  fs ← get_files;
  match fs !! parent with
  | None => raise (FileNotFoundError (parent </> name))
  | Some Dir =>
      match fs !! (parent </> name) with
      | Some _ => raise (FileExistsError (parent </> name))
      | None => put_files (<[parent </> name := Dir]> fs)
      end
  | Some _ => raise (NotADirectoryError (parent </> name))
  end.

(** The table pandas reads back from a file that [to_csv] wrote with
    its row index: the index comes back as a first, unnamed column. *)
Definition with_index_column (df : DataFrame cell)
    : DataFrame cell :=
  {| df_rows := df_rows df;
     df_cols := ("Unnamed: 0", index_cell E <$> seq 0 (df_rows df))
                  :: df_cols df |}.

(** [pd.read_csv(path)] *)
Definition pd_read_csv (path : pyval)
    : Run (DataFrame cell) :=
  match path with
  | PStr p =>
      f ← open_read p;
      match f with
      | Csv df => ret df
      | CsvIndexed df => ret (with_index_column df)
      | _ => raise (DecodeError p)
      end
  | _ => raise (ValueError "Invalid file path or buffer object type")
  end.

(** [df.to_csv(dir / name)] *)
Definition to_csv (df : DataFrame cell) (dir name : string) : Run unit :=
  open_write dir name (CsvIndexed df).

(** [pickle.load(open(p, 'rb'))] *)
Definition pickle_load (p : string) : Run estimator :=
  f ← open_read p;
  match f with
  | Pickle m => ret m
  | _ => raise (DecodeError p)
  end.

(** [pickle.dump(model, open(dir / name, 'wb'))] *)
Definition pickle_dump (m : estimator) (dir name : string) : Run unit :=
  open_write dir name (Pickle m).

(** [json.load(open(p, 'r'))] *)
Definition json_load (p : string) : Run (gmap string pyval) :=
  f ← open_read p;
  match f with
  | Json doc => ret doc
  | _ => raise (DecodeError p)
  end.

(** Modelled from the spec: [igel.utils.read_yaml] is not part of
    igel.py.  "Payload MUST include the path to a configuration
    artifact; the Orchestrator reads it": the file at the path is
    opened and parsed. *)
Definition read_yaml (path : pyval) : Run yaml :=
  match path with
  | PStr p =>
      f ← open_read p;
      match f with
      | Yaml cfg => ret cfg
      | _ => raise (DecodeError p)
      end
  | _ => raise (TypeError "expected str, bytes or os.PathLike object")
  end.

(** [d.get(k)] on a dict of values: [None] when the key is absent. *)
Definition dict_get (d : gmap string pyval) (k : string) : pyval :=
  default PNone (d !! k).

(** [v in names] for a tuple or list of strings. *)
Definition py_in (v : pyval) (names : list string) : bool :=
  match v with
  | PStr s => bool_decide (s ∈ names)
  | _ => false
  end.

(** [x, y = pair]: unpacking [None] raises. *)
Definition unpack {A B} (pair : option (A * B)) : Run (A * B) :=
  match pair with
  | Some xy => ret xy
  | None => raise (TypeError "cannot unpack non-iterable NoneType object")
  end.


(** *** The constructor *)

(** A new instance before [__init__] runs: every attribute resolves to
    its class-level default; [res_path] was computed from the working
    directory when the class was defined. *)
Definition new_instance : IgelModel :=
  {| command := PNone; model_path := PNone; model := None;
     target := PNone; features := None;
     res_path := cwd E </> stats_dir;
     data_path := PNone; model_definition_file := PNone;
     yaml_config := None; model_type := PNone; algorithm := None |}.

(** [cli_args.get(k)] *)
Definition args_get (cli_args : gmap string pyval) (k : string) : pyval :=
  dict_get cli_args k.

Definition __init__ (command : string) (cli_args : gmap string pyval)
    : Run unit :=
  logger INFO "CLI args" None;;
  logger INFO "Command" None;;
  (if bool_decide (command ∈ commands) then ret tt
   else logger ERROR "Please choose an existing command" None);;
  modify_self (set_command (PStr command));;
  modify_self (set_data_path (args_get cli_args "data_path"));;
  if bool_decide (command = "fit") then
    modify_self (set_model_definition_file (args_get cli_args "yaml_path"));;
    cfg ← read_yaml (args_get cli_args "yaml_path");
    modify_self (set_yaml_config (Some cfg));;
    logger INFO "model configuration" None;;
    params ← lift (extract_params E cfg);
    modify_self (set_model_type params.1.1);;
    modify_self (set_target params.1.2);;
    modify_self (set_algorithm (Some params.2))
  else
    modify_self (set_model_path (args_get cli_args "model_path"));;
    s ← get_self;
    dic ← json_load (res_path s </> "description.json");
    modify_self (set_target (dict_get dic "target"));;
    modify_self (set_model_type (dict_get dic "type")).

(** [IgelModel(command, **cli_args)]: allocate, then initialise. *)
Definition construct (command : string) (cli_args : gmap string pyval)
    : Run unit :=
  modify_self (λ _, new_instance);;
  __init__ command cli_args.

(** *** Helpers of the command operations *)

Definition _create_model (model_type model_algorithm : pyval)
    : outcome model_class :=
  if negb (py_in model_type model_types) then
    Raised (AssertionError "model type is not supported")
  else
    match model_type with
    | PStr kind =>
        match models_dict E !! kind with
        | None =>
            Raised (AttributeError "'NoneType' object has no attribute 'get'")
        | Some algorithms =>
            match model_algorithm with
            | PList _ => Raised (TypeError "unhashable type: 'list'")
            | PNone => Raised (Exception "Model not found in the algorithms list")
            | PStr name =>
                match algorithms !! name with
                | None =>
                    Raised (Exception "Model not found in the algorithms list")
                | Some cls => Returned cls
                end
            end
        end
    | _ => Raised (AssertionError "model type is not supported")
    end.

(** Returns [True], or [None] when the directory could not be made.
    [os.getcwd()] is the working directory [cwd E], which is taken to
    exist for as long as the process runs. *)
Definition _save_model (mdl : estimator) (save_to : string)
    : Run (option bool) :=
  modify_self (set_res_path (cwd E </> stats_dir));;
  s ← get_self;
  try_except_else
    (found ← os_path_exists (res_path s);
     if negb found then os_mkdir (cwd E) stats_dir
     else
       logger INFO "already exists in the path" None;;
       logger WARNING "data in the folder will be overridden" None)
    is_OSError
    (λ e, logger ERROR "Creation of the directory %s failed" (Some e);;
          ret None)
    (λ _, logger INFO "Successfully created the directory %s " None;;
          pickle_dump mdl (res_path s) save_to;;
          ret (Some true)).

(** Returns the model, or [None] when the file is not found. *)
Definition _load_model (f : pyval) : Run (option estimator) :=
  s ← get_self;
  try_except
    (if negb (truthy f) then
       logger INFO "result path | saved to" None;;
       logger INFO "loading model form" None;;
       m ← pickle_load (res_path s </> save_to);
       ret (Some m)
     else
       logger INFO "loading from" None;;
       match f with
       | PStr p => m ← pickle_load p; ret (Some m)
       | _ => raise (TypeError "expected str, bytes or os.PathLike object")
       end)
    is_FileNotFoundError
    (λ _, logger ERROR "File not found in" None;; ret None).

(** Returns [(x, y)], or [None] when the [try] block failed. *)
Definition _process_data : Run (option (ndarray cell * ndarray cell)) :=
  s ← get_self;
  match target s with
  | PList tg =>
      if bool_decide (0 < length tg) then
        try_except
          (dataset ← pd_read_csv (data_path s);
           logger INFO "dataset shape" None;;
           modify_self (set_features (Some (frame_columns dataset)));;
           if bool_decide (Exists (λ col, col ∉ frame_columns dataset) tg)
           then raise (Exception
                  "chosen targets to predict must exist in the dataset")
           else
             popped ← lift (pop_each tg dataset);
             let y := concat_columns (df_rows dataset) popped.1 in
             let x := _reshape E (to_numpy popped.2) in
             let y := _reshape E (to_numpy y) in
             logger INFO "y shape and x shape" None;;
             ret (Some (x, y)))
          is_Exception
          (λ e, logger ERROR "error occured while preparing the data"
                  (Some e);;
                ret None)
      else raise (AssertionError "please provide at least a target to predict")
  | _ => raise (AssertionError "provide target(s) as a list in the yaml file")
  end.

Definition _prepare_fit_data := _process_data.

Definition _prepare_val_data := _process_data.

(** Returns [x_pred], or [None] when reading failed.  The table read
    from the file is handed on as the array of its values. *)
Definition _prepare_predict_data : Run (option (ndarray cell)) :=
  s ← get_self;
  try_except
    (x_val ← pd_read_csv (data_path s);
     logger INFO "shape of the prediction data" None;;
     ret (Some (_reshape E (to_numpy x_val))))
    is_Exception
    (λ e, logger ERROR "exception while preparing prediction data" (Some e);;
          ret None).


(** *** The command operations *)

(** The dict that [fit] dumps to description.json. *)
Definition fit_description (s : IgelModel) (mdl : estimator)
    : gmap string pyval :=
  <["model" := PStr (class_name E (est_class mdl))]>
  (<["type" := model_type s]>
  (<["data_path" := data_path s]>
  (<["results_path" := PStr (res_path s)]>
  (<["model_path" := PStr (res_path s)]>
  (<["target" := target s]> ∅))))).

Definition fit : Run unit :=
  s ← get_self;
  alg ← match algorithm s with
        | Some a => ret a
        | None => raise (AttributeError
                    "'IgelModel' object has no attribute 'algorithm'")
        end;
  model_class ← lift (_create_model (model_type s) alg);
  let fresh := {| est_class := model_class;
                  est_state := class_new E model_class |} in
  modify_self (set_model (Some fresh));;
  logger INFO "executing a algorithm .." None;;
  data ← _prepare_fit_data;
  xy ← unpack data;
  fitted ← lift (model_fit E fresh xy.1 xy.2);
  let mdl := {| est_class := model_class; est_state := fitted |} in
  modify_self (set_model (Some mdl));;
  saved ← _save_model mdl save_to;
  (match saved with
   | Some true =>
       logger INFO "model saved successfully and can be found in the folder"
         None
   | _ => ret tt
   end);;
  s ← get_self;
  try_except
    (logger INFO "saving fit description to" None;;
     open_write (res_path s) "description.json"
       (Json (fit_description s mdl)))
    is_Exception
    (λ e, logger ERROR "Error while storing the fit description file"
            (Some e)).

(** The [try] block of [evaluate].  The metrics are written in one
    step: a [json.dump] that fails after the file has been opened is not
    modelled. *)
Definition evaluate_body (kw : kwargs) : Run unit :=
  s ← get_self;
  loaded ← _load_model (model_path s);
  data ← _prepare_val_data;
  xy ← unpack data;
  y_pred ← match loaded with
           | Some mdl => lift (model_predict E mdl (Some xy.1))
           | None => raise (AttributeError
                       "'NoneType' object has no attribute 'predict'")
           end;
  eval_results ← lift (evaluate_model E (model_type s) y_pred xy.2 kw);
  logger INFO "saving fit description to" None;;
  open_write (res_path s) "evaluation.json" (MetricsJson eval_results).

Definition evaluate (kw : kwargs) : Run unit :=
  try_except (evaluate_body kw) is_Exception
    (λ e, logger ERROR "error occured during evaluation" (Some e)).

(** The [try] block of [predict]. *)
Definition predict_body : Run unit :=
  s ← get_self;
  loaded ← _load_model (model_path s);
  x_val ← _prepare_predict_data;
  y_pred ← match loaded with
           | Some mdl => lift (model_predict E mdl x_val)
           | None => raise (AttributeError
                       "'NoneType' object has no attribute 'predict'")
           end;
  let y_pred := _reshape E y_pred in
  logger INFO "predictions array type" None;;
  logger INFO "predictions shape | shape len" None;;
  logger INFO "predict on targets" None;;
  df_pred ← lift (predictions_frame (target s) y_pred);
  logger INFO "saving the predictions to" None;;
  to_csv df_pred (res_path s) "predictions.csv".

Definition predict : Run unit :=
  try_except predict_body is_Exception
    (λ e, logger ERROR "Error while preparing predictions" (Some e)).

(** *** One invocation: construct the object, then run its command *)

Definition run_fit (cli_args : gmap string pyval) : Run unit :=
  construct "fit" cli_args;; fit.

Definition run_evaluate (cli_args : gmap string pyval) (kw : kwargs)
    : Run unit :=
  construct "evaluate" cli_args;; evaluate kw.

Definition run_predict (cli_args : gmap string pyval) : Run unit :=
  construct "predict" cli_args;; predict.

(** The paths of the artifact store. *)
Definition results_dir : string := cwd E </> stats_dir.
Definition model_file : string := results_dir </> save_to.
Definition description_file : string := results_dir </> "description.json".
Definition evaluation_file : string := results_dir </> "evaluation.json".
Definition predictions_file : string := results_dir </> "predictions.csv".

(** *** Runs that go through *)

(** What one [fit] invocation works with when nothing fails: the
    configuration artifact and what [extract_params] finds in it, the
    class the registry resolves, the dataset, and the state the
    estimator reaches by fitting. *)
Record fit_plan := {
  plan_yaml_path : string;
  plan_config : yaml;
  plan_type : pyval;
  plan_targets : list string;
  plan_algorithm : pyval;
  plan_class : model_class;
  plan_data_path : string;
  plan_data : DataFrame cell;
  plan_state : model_state
}.

Definition fresh_model (p : fit_plan) : estimator :=
  {| est_class := plan_class p; est_state := class_new E (plan_class p) |}.

Definition fitted_model (p : fit_plan) : estimator :=
  {| est_class := plan_class p; est_state := plan_state p |}.

(** A valid configuration and dataset for the command-line arguments
    [a] on the filesystem [fs]: both files are there and parse, the
    algorithm resolves, the targets are a non-empty list of distinct
    column labels of the dataset, the estimator accepts the prepared
    arrays, and the results directory exists or can be created with
    no directory in the way of the two artifacts. *)
Definition fit_ready (a : gmap string pyval) (fs : gmap string file)
    (p : fit_plan) : Prop :=
  args_get a "yaml_path" = PStr (plan_yaml_path p) ∧
  fs !! plan_yaml_path p = Some (Yaml (plan_config p)) ∧
  extract_params E (plan_config p)
    = Returned (plan_type p, PList (plan_targets p), plan_algorithm p) ∧
  _create_model (plan_type p) (plan_algorithm p) = Returned (plan_class p) ∧
  args_get a "data_path" = PStr (plan_data_path p) ∧
  fs !! plan_data_path p = Some (Csv (plan_data p)) ∧
  plan_targets p ≠ [] ∧
  NoDup (plan_targets p) ∧
  (∀ t, t ∈ plan_targets p → t ∈ frame_columns (plan_data p)) ∧
  model_fit E (fresh_model p)
    (_reshape E (to_numpy (features_frame (plan_targets p) (plan_data p))))
    (_reshape E (to_numpy (targets_frame (plan_targets p) (plan_data p))))
    = Returned (plan_state p) ∧
  (fs !! results_dir = Some Dir
   ∨ fs !! results_dir = None ∧ fs !! cwd E = Some Dir) ∧
  fs !! model_file ≠ Some Dir ∧
  fs !! description_file ≠ Some Dir.

(** The object at the end of such a [fit]. *)
Definition fitted_self (p : fit_plan) : IgelModel :=
  {| command := PStr "fit"; model_path := PNone;
     model := Some (fitted_model p);
     target := PList (plan_targets p);
     features := Some (frame_columns (plan_data p));
     res_path := results_dir;
     data_path := PStr (plan_data_path p);
     model_definition_file := PStr (plan_yaml_path p);
     yaml_config := Some (plan_config p);
     model_type := plan_type p;
     algorithm := Some (plan_algorithm p) |}.

(** The filesystem at the end of such a [fit]. *)
Definition stored (p : fit_plan) (fs : gmap string file)
    : gmap string file :=
  <[description_file :=
      Json (fit_description (fitted_self p) (fitted_model p))]>
  (<[model_file := Pickle (fitted_model p)]>
  (<[results_dir := Dir]> fs)).

(** The attributes after a construction that read [doc] from
    description.json. *)
Definition described_self (cmd : string) (cli_args : gmap string pyval)
    (doc : gmap string pyval) : IgelModel :=
  {| command := PStr cmd; model_path := args_get cli_args "model_path";
     model := None; target := dict_get doc "target"; features := None;
     res_path := results_dir; data_path := args_get cli_args "data_path";
     model_definition_file := PNone; yaml_config := None;
     model_type := dict_get doc "type"; algorithm := None |}.

(** What the constructor logs before it branches on the command. *)
Definition command_log (cmd : string) : list log_entry :=
  [LogEntry INFO "CLI args" None; LogEntry INFO "Command" None]
  ++ (if bool_decide (cmd ∈ commands) then []
      else [LogEntry ERROR "Please choose an existing command" None]).

(** The object and the filesystem let [predict] load the stored
    model [mdl], read the table [df] at [data_path], obtain [raw] from
    the estimator and write into the results directory. *)
Definition predict_ready (w : world) (mdl : estimator)
    (df : DataFrame cell) (raw : ndarray cell) : Prop :=
  truthy (model_path (self w)) = false ∧
  files w !! (res_path (self w) </> save_to) = Some (Pickle mdl) ∧
  (∃ dp, data_path (self w) = PStr dp ∧ files w !! dp = Some (Csv df)) ∧
  model_predict E mdl (Some (_reshape E (to_numpy df))) = Returned raw ∧
  files w !! res_path (self w) = Some Dir ∧
  files w !! (res_path (self w) </> "predictions.csv") ≠ Some Dir.

End Orchestrator.
Arguments estimator : clear implicits.
Arguments file : clear implicits.
Arguments Collaborators : clear implicits.
Arguments IgelModel : clear implicits.
Arguments world : clear implicits.
Arguments fit_plan : clear implicits.

(** ** Conditions on a run of [fit] *)

Section Conditions.
Context {cell model_class model_state yaml metrics kwargs : Type}.
Variable E : Collaborators cell model_class model_state yaml metrics kwargs.

(** Everything [fit] does before it persists goes through on the world
    [w]: the algorithm resolves to [cls], the targets [tg] are a
    non-empty list of distinct columns of the dataset [df], and the
    estimator reaches the state [st] on the prepared arrays. *)
Definition fit_trains (w : world cell model_class model_state yaml metrics)
    (cls : model_class) (tg : list string) (df : DataFrame cell)
    (st : model_state) : Prop :=
  (∃ alg, algorithm (self w) = Some alg ∧
          _create_model E (model_type (self w)) alg = Returned cls) ∧
  target (self w) = PList tg ∧
  tg ≠ [] ∧
  NoDup tg ∧
  (∃ dp, data_path (self w) = PStr dp ∧ files w !! dp = Some (Csv df)) ∧
  (∀ t, t ∈ tg → t ∈ frame_columns df) ∧
  model_fit E {| est_class := cls; est_state := class_new E cls |}
    (_reshape E (to_numpy (features_frame tg df)))
    (_reshape E (to_numpy (targets_frame tg df)))
  = Returned st.

(** The object when [fit] reaches [_save_model] on such a world. *)
Definition trained_self (w : world cell model_class model_state yaml metrics)
    (cls : model_class) (df : DataFrame cell) (st : model_state)
    : IgelModel model_class model_state yaml :=
  set_model (Some {| est_class := cls; est_state := st |})
    (set_features (Some (frame_columns df))
       (set_model (Some {| est_class := cls; est_state := class_new E cls |})
          (self w))).



(** The steps of [fit] from [_save_model] on: save the model, then
    write the description inside its own [try]. *)
Definition fit_persist (mdl : estimator model_class model_state)
    : Run (cell := cell) (metrics := metrics) unit :=
  bind (_save_model E mdl save_to) (λ saved,
  bind (match saved with
        | Some true =>
            logger INFO
              "model saved successfully and can be found in the folder" None
        | _ => ret tt
        end) (λ _,
  bind get_self (λ s,
  try_except
    (bind (logger INFO "saving fit description to" None) (λ _,
     open_write (res_path s) "description.json"
       (Json (fit_description E s mdl))))
    is_Exception
    (λ e, logger ERROR "Error while storing the fit description file"
            (Some e))))).

End Conditions.

(** ** A small concrete instance

    Integer cells, classes named by strings, an estimator whose state
    is the number of target columns it was fitted on and which predicts
    a constant: a one-dimensional array when fitted on one target, one
    column per target otherwise.  It serves to run the orchestrator on
    explicit inputs. *)

Module Sample.

Abbreviation config := (pyval * pyval * pyval)%type.
Abbreviation sfile := (file Z string nat config nat).
Abbreviation sworld := (world Z string nat config nat).

Definition env (reshape : ndarray Z → ndarray Z)
  : Collaborators Z string nat config nat unit :=
{| cwd := "/w";
   models_dict :=
     {[ "regression" := {[ "LinearRegression" := "LinearRegression" ]};
        "classification" := {[ "SVM" := "SVC" ]} ]};
   class_name := λ c, c;
   class_new := λ _, 0;
   model_fit := λ _ _ y,
     match y with
     | Arr2 _ cols => Returned (length cols)
     | Arr1 _ => Raised (ValueError "expected a 2-D array")
     end;
   model_predict := λ m x,
     match x with
     | Some a =>
         Returned
           (if decide (est_state m = 1) then
              Arr1 (replicate (array_rows a) 7%Z)
            else
              Arr2 (array_rows a)
                (replicate (est_state m) (replicate (array_rows a) 7%Z)))
     | None => Raised (ValueError "expected an array")
     end;
   evaluate_model := λ _ _ _ _, Returned 0;
   extract_params := λ cfg, Returned cfg;
   _reshape := reshape;
   index_cell := Z.of_nat |}.

(** [_reshape] as the spec describes it, and a [_reshape] that leaves
  every array alone. *)
Definition E := env reshape_trailing.
Definition E_raw := env (λ a, a).

Definition data : DataFrame Z :=
{| df_rows := 2;
   df_cols := [("x1", [1; 2]); ("y1", [3; 4]); ("x2", [5; 6]);
               ("y2", [7; 8])]%Z |}.

Definition two_targets : config :=
(PStr "regression", PList ["y2"; "y1"], PStr "LinearRegression").
Definition one_target : config :=
(PStr "regression", PList ["y1"], PStr "LinearRegression").

Definition fs0 : gmap string sfile :=
{[ "/w" := Dir; "/w/data.csv" := Csv data;
   "/w/model.yaml" := Yaml two_targets;
   "/w/other.yaml" := Yaml one_target ]}.

Definition args1 : gmap string pyval :=
{[ "data_path" := PStr "/w/data.csv";
   "yaml_path" := PStr "/w/model.yaml" ]}.
Definition args2 : gmap string pyval :=
{[ "data_path" := PStr "/w/data.csv";
   "yaml_path" := PStr "/w/other.yaml" ]}.

Definition w0 : sworld := {| self := new_instance E; files := fs0 |}.

Definition plan1 : fit_plan Z string nat config :=
{| plan_yaml_path := "/w/model.yaml"; plan_config := two_targets;
   plan_type := PStr "regression"; plan_targets := ["y2"; "y1"];
   plan_algorithm := PStr "LinearRegression";
   plan_class := "LinearRegression";
   plan_data_path := "/w/data.csv"; plan_data := data;
   plan_state := 2 |}.

Definition plan2 : fit_plan Z string nat config :=
{| plan_yaml_path := "/w/other.yaml"; plan_config := one_target;
   plan_type := PStr "regression"; plan_targets := ["y1"];
   plan_algorithm := PStr "LinearRegression";
   plan_class := "LinearRegression";
   plan_data_path := "/w/data.csv"; plan_data := data;
   plan_state := 1 |}.

(** An object configured by hand: problem kind, targets, algorithm and
  dataset path set on a new instance. *)
Definition configured (E : Collaborators Z string nat config nat unit)
  (kind : string) (tg : list string) (alg : string) : sworld :=
{| self := set_algorithm (Some (PStr alg))
             (set_model_type (PStr kind)
                (set_target (PList tg)
                   (set_data_path (PStr "/w/data.csv") (new_instance E))));
   files := fs0 |}.

(** A results directory in which a model fitted on [k] targets lies
  next to a description that lists two targets, and the object a
  [predict] invocation constructs from it. *)
Definition fs_fitted (k : nat) : gmap string sfile :=
<["/w/model_results/model.sav" :=
    Pickle {| est_class := "LinearRegression"; est_state := k |}]>
(<["/w/model_results/description.json" :=
    Json {[ "target" := PList ["y1"; "y2"];
            "type" := PStr "regression" ]}]>
(<["/w/model_results" := Dir]> fs0)).

Definition w_fitted (E : Collaborators Z string nat config nat unit)
  (k : nat) : sworld :=
{| self := described_self E "predict"
             {[ "data_path" := PStr "/w/data.csv" ]}
             {[ "target" := PList ["y1"; "y2"];
                "type" := PStr "regression" ]};
   files := fs_fitted k |}.

End Sample.

(** Closing a goal on the concrete instance by evaluating it. *)
Ltac by_evaluation :=
  first
    [ vm_compute; reflexivity
    | vm_compute; discriminate
    | apply (bool_decide_unpack _); vm_compute; exact I ].

Ltac sample_ready :=
  repeat split; try by_evaluation;
  [ apply Forall_forall; by_evaluation
  | right; split; by_evaluation ].

(** ** Further concrete worlds *)

Module Cases.

(** The object of [w] on another filesystem. *)
Definition on (fs : gmap string Sample.sfile) (w : Sample.sworld)
    : Sample.sworld :=
  {| self := self w; files := fs |}.

(** An object configured for the two targets, ready to train. *)
Definition trainable : Sample.sworld :=
  Sample.configured Sample.E "regression" ["y2"; "y1"] "LinearRegression".

(** A regular file lies where the results directory should be. *)
Definition fs_results_file : gmap string Sample.sfile :=
  <["/w/model_results" := Csv Sample.data]> Sample.fs0.

(** A directory lies where description.json should be written. *)
Definition fs_description_dir : gmap string Sample.sfile :=
  <["/w/model_results/description.json" := Dir]>
  (<["/w/model_results" := Dir]> Sample.fs0).

(** The collaborators of [Sample.E] with an estimator that refuses to
    fit. *)
Definition E_failing
    : Collaborators Z string nat Sample.config nat unit :=
  {| cwd := cwd Sample.E;
     models_dict := models_dict Sample.E;
     class_name := class_name Sample.E;
     class_new := class_new Sample.E;
     model_fit := λ _ _ _, Raised (CollaboratorError "singular matrix");
     model_predict := model_predict Sample.E;
     evaluate_model := evaluate_model Sample.E;
     extract_params := extract_params Sample.E;
     _reshape := _reshape Sample.E;
     index_cell := index_cell Sample.E |}.

(** A [predict] object whose data path names no file. *)
Definition w_no_data : Sample.sworld :=
  {| self := described_self Sample.E "predict"
               {[ "data_path" := PStr "/w/none.csv" ]}
               {[ "target" := PList ["y1"; "y2"];
                  "type" := PStr "regression" ]};
     files := Sample.fs_fitted 2 |}.

End Cases.

Ltac sample_trains :=
  repeat split;
  first [ by_evaluation
        | eexists; split; by_evaluation
        | apply Forall_forall; by_evaluation ].

(** ** An estimator that checks its features

    The state of this estimator is the number of feature columns and of
    target columns it was fitted on.  It refuses to predict on an array
    with another number of feature columns, as estimators that validate
    their input do, and otherwise answers with one constant column per
    target. *)

Module Checked.

Abbreviation cfile := (file Z string (nat * nat) Sample.config nat).
Abbreviation cworld := (world Z string (nat * nat) Sample.config nat).

Definition E : Collaborators Z string (nat * nat) Sample.config nat unit :=
  {| cwd := "/w";
     models_dict :=
       {[ "regression" := {[ "LinearRegression" := "LinearRegression" ]};
          "classification" := {[ "SVM" := "SVC" ]} ]};
     class_name := λ c, c;
     class_new := λ _, (0, 0);
     model_fit := λ _ x y,
       match x, y with
       | Arr2 _ xs, Arr2 _ ys => Returned (length xs, length ys)
       | _, _ => Raised (ValueError "expected 2-D arrays")
       end;
     model_predict := λ m x,
       match x with
       | Some (Arr2 n xs) =>
           if decide (length xs = (est_state m).1) then
             Returned (Arr2 n (replicate (est_state m).2 (replicate n 7%Z)))
           else
             Raised (ValueError
               "X has a different number of features than the estimator")
       | _ => Raised (ValueError "expected a 2-D array")
       end;
     evaluate_model := λ _ _ _ _, Returned 0;
     extract_params := λ cfg, Returned cfg;
     _reshape := reshape_trailing;
     index_cell := Z.of_nat |}.

(** A prediction input with the feature columns only. *)
Definition features : DataFrame Z :=
  {| df_rows := 3;
     df_cols := [("x1", [1; 2; 3]); ("x2", [4; 5; 6])]%Z |}.

Definition fs0 : gmap string cfile :=
  {[ "/w" := Dir; "/w/data.csv" := Csv Sample.data;
     "/w/features.csv" := Csv features;
     "/w/model.yaml" := Yaml Sample.two_targets ]}.

Definition args_features : gmap string pyval :=
  {[ "data_path" := PStr "/w/features.csv" ]}.

Definition w0 : cworld := {| self := new_instance E; files := fs0 |}.

Definition plan : fit_plan Z string (nat * nat) Sample.config :=
  {| plan_yaml_path := "/w/model.yaml"; plan_config := Sample.two_targets;
     plan_type := PStr "regression"; plan_targets := ["y2"; "y1"];
     plan_algorithm := PStr "LinearRegression";
     plan_class := "LinearRegression";
     plan_data_path := "/w/data.csv"; plan_data := Sample.data;
     plan_state := (2, 2) |}.

(** [fit], then [predict] on the dataset that was fitted. *)
Definition fit_then_predict_same
    : outcome unit * cworld * list log_entry :=
  bind (run_fit E Sample.args1) (λ _, run_predict E Sample.args1) w0.

End Checked.

(** * Properties *)

(** ** Paths *)

Lemma app_string_inj (p a b : string) : p +:+ a = p +:+ b → a = b.
Proof.
  induction p as [|c p IH]; simpl; [done|].
  intros H. injection H as H. by apply IH.
Qed.

Lemma path_join_inj (d a b : string) : d </> a = d </> b → a = b.
Proof.
  unfold path_join. intros H.
  apply app_string_inj in H. by injection H.
Qed.

Lemma app_string_length (a b : string) :
  String.length (a +:+ b) = String.length a + String.length b.
Proof. induction a as [|c a IH]; simpl; [done|]. by rewrite IH. Qed.

Lemma path_join_ne_dir (d a : string) : d </> a ≠ d.
Proof.
  unfold path_join. intros H.
  apply (f_equal String.length) in H.
  rewrite !app_string_length in H. simpl in H. lia.
Qed.

Lemma path_join_ne (d a b : string) : a ≠ b → d </> a ≠ d </> b.
Proof. intros Hab H. by apply Hab, (path_join_inj d). Qed.

(** ** Popping the target columns *)

Section PopColumns.
Context {cell : Type}.
Implicit Types (df : DataFrame cell) (tg : list string).

Lemma filter_label_ne (t u : string) (cs : list (string * list cell)) :
  t ≠ u →
  filter (λ c, c.1 = u) (filter (λ c, c.1 ≠ t) cs)
  = filter (λ c, c.1 = u) cs.
Proof.
  intros Hne. induction cs as [|c cs IH]; [done|].
  rewrite (filter_cons (λ c, c.1 ≠ t)).
  destruct (decide (c.1 ≠ t)) as [Hc|Hc].
  - rewrite !filter_cons. destruct (decide (c.1 = u)); by rewrite IH.
  - rewrite filter_cons. destruct (decide (c.1 = u)) as [Hu|Hu]; [|done].
    exfalso. apply Hc. congruence.
Qed.

Lemma filter_label_notin (t : string) tg (cs : list (string * list cell)) :
  filter (λ c, c.1 ∉ tg) (filter (λ c, c.1 ≠ t) cs)
  = filter (λ c, c.1 ∉ t :: tg) cs.
Proof.
  induction cs as [|c cs IH]; [done|].
  rewrite (filter_cons (λ c, c.1 ≠ t)), (filter_cons (λ c, c.1 ∉ t :: tg)).
  destruct (decide (c.1 ≠ t)) as [Hc|Hc].
  - rewrite filter_cons.
    destruct (decide (c.1 ∉ tg)) as [Hn|Hn];
      destruct (decide (c.1 ∉ t :: tg)) as [Hm|Hm]; rewrite IH; try done.
    + exfalso. apply Hm. intros [?|?]%elem_of_cons; done.
    + exfalso. apply Hn. intros ?. apply Hm. by right.
  - destruct (decide (c.1 ∉ t :: tg)) as [Hm|Hm]; [|done].
    exfalso. apply Hc. intros Heq. apply Hm. rewrite Heq. by left.
Qed.

Lemma filter_keeps_all (tg : list string) (cs : list (string * list cell)) :
  tg = [] → filter (λ c, c.1 ∉ tg) cs = cs.
Proof.
  intros ->. induction cs as [|c cs IH]; [done|].
  rewrite filter_cons_True by apply not_elem_of_nil. by rewrite IH.
Qed.

Lemma labelled_nonempty (t : string) df :
  t ∈ frame_columns df → labelled t df ≠ [].
Proof.
  unfold frame_columns, labelled.
  intros [c [Ht Hc]]%list_elem_of_fmap Hnil.
  assert (c ∈ filter (λ c', c'.1 = t) (df_cols df)) as Hin
    by (apply list_elem_of_filter; done).
  rewrite Hnil in Hin. by apply not_elem_of_nil in Hin.
Qed.

Lemma pop_present (t : string) df :
  t ∈ frame_columns df →
  pop t df = Returned (labelled t df,
                       {| df_rows := df_rows df;
                          df_cols := filter (λ c, c.1 ≠ t) (df_cols df) |}).
Proof.
  intros Hin. apply labelled_nonempty in Hin.
  unfold pop. fold (labelled t df).
  by destruct (labelled t df).
Qed.

Lemma pop_absent (t : string) df :
  t ∉ frame_columns df → pop t df = Raised (KeyError t).
Proof.
  intros Hnot. unfold pop.
  destruct (filter (λ c, c.1 = t) (df_cols df)) as [|c cs] eqn:Hf; [done|].
  exfalso. apply Hnot.
  assert (c ∈ filter (λ c, c.1 = t) (df_cols df)) as Hc
    by (rewrite Hf; left).
  apply list_elem_of_filter in Hc as [<- Hc].
  unfold frame_columns. apply list_elem_of_fmap. eauto.
Qed.

(** With distinct targets that are all present, the pops succeed and
    leave exactly the specified split. *)
Lemma pop_each_split tg df :
  NoDup tg →
  (∀ t, t ∈ tg → t ∈ frame_columns df) →
  pop_each tg df
  = Returned (target_part tg df,
              {| df_rows := df_rows df; df_cols := feature_part tg df |}).
Proof.
  revert df. induction tg as [|t tg IH]; intros df Hnd Hall.
  - simpl. unfold target_part, feature_part. simpl.
    rewrite filter_keeps_all by done. by destruct df.
  - apply NoDup_cons in Hnd as [Hnotin Hnd].
    simpl. rewrite pop_present by (apply Hall; left).
    set (df' := {| df_rows := df_rows df;
                   df_cols := filter (λ c, c.1 ≠ t) (df_cols df) |}).
    assert (∀ u, u ∈ tg → labelled u df' = labelled u df) as Hlab.
    { intros u Hu. unfold labelled, df'. simpl.
      apply filter_label_ne. intros ->. done. }
    rewrite IH; [|done|].
    + unfold target_part, feature_part. simpl. f_equal. f_equal.
      * f_equal. f_equal. apply list_fmap_ext.
        intros i u Hi. apply Hlab. by eapply list_elem_of_lookup_2.
      * f_equal. apply filter_label_notin.
    + intros u Hu. pose proof (Hlab u Hu) as Hl.
      assert (u ∈ frame_columns df) as Hin by (apply Hall; by right).
      apply labelled_nonempty in Hin. rewrite <- Hl in Hin.
      unfold labelled, frame_columns in *.
      destruct (filter (λ c, c.1 = u) (df_cols df')) as [|c cs] eqn:Hf;
        [done|].
      assert (c ∈ filter (λ c, c.1 = u) (df_cols df')) as Hc
        by (rewrite Hf; left).
      apply list_elem_of_filter in Hc as [<- Hc].
      apply list_elem_of_fmap. eauto.
Qed.

End PopColumns.


(** ** Running the orchestrator *)

Section Properties.
Context {cell model_class model_state yaml metrics kwargs : Type}.
Variable E : Collaborators cell model_class model_state yaml metrics kwargs.
Abbreviation World := (world cell model_class model_state yaml metrics).
Abbreviation RunM := (@Run cell model_class model_state yaml metrics).
Abbreviation Files := (gmap string (file cell model_class model_state yaml metrics)).
Implicit Types (w : World) (fs : Files) (args : gmap string pyval).

(** *** Evaluation rules of the combinators *)

Lemma bind_ok {A B} (m : RunM A) (k : A → RunM B) w x w1 l1 r w2 l2 :
  m w = (Returned x, w1, l1) → k x w1 = (r, w2, l2) →
  bind m k w = (r, w2, (l1 ++ l2)%list).
Proof. intros Hm Hk. unfold bind. by rewrite Hm, Hk. Qed.

Lemma bind_raised {A B} (m : RunM A) (k : A → RunM B) w e w1 l1 :
  m w = (Raised e, w1, l1) → bind m k w = (Raised e, w1, l1).
Proof. intros Hm. unfold bind. by rewrite Hm. Qed.

Lemma try_else_ok {A B} (body : RunM A) catches (handler : exn → RunM B)
    (orelse : A → RunM B) w x w1 l1 r w2 l2 :
  body w = (Returned x, w1, l1) → orelse x w1 = (r, w2, l2) →
  try_except_else body catches handler orelse w = (r, w2, (l1 ++ l2)%list).
Proof. intros Hb Ho. unfold try_except_else. by rewrite Hb, Ho. Qed.

Lemma try_else_caught {A B} (body : RunM A) catches (handler : exn → RunM B)
    (orelse : A → RunM B) w e w1 l1 r w2 l2 :
  body w = (Raised e, w1, l1) → catches e = true →
  handler e w1 = (r, w2, l2) →
  try_except_else body catches handler orelse w = (r, w2, (l1 ++ l2)%list).
Proof.
  intros Hb Hc Hh. unfold try_except_else. by rewrite Hb, Hc, Hh.
Qed.


Lemma try_ok {A} (body : RunM A) catches handler w x w1 l1 :
  body w = (Returned x, w1, l1) →
  try_except body catches handler w = (Returned x, w1, l1).
Proof.
  intros Hb. unfold try_except.
  erewrite try_else_ok by (done || reflexivity). by rewrite app_nil_r.
Qed.

Lemma try_caught {A} (body : RunM A) catches handler w e w1 l1 r w2 l2 :
  body w = (Raised e, w1, l1) → catches e = true →
  handler e w1 = (r, w2, l2) →
  try_except body catches handler w = (r, w2, (l1 ++ l2)%list).
Proof. apply try_else_caught. Qed.

(** *** Filesystem calls *)

Lemma open_read_file w p f :
  files w !! p = Some f → f ≠ Dir → open_read p w = (Returned f, w, []).
Proof.
  intros Hf Hd. unfold open_read.
  erewrite bind_ok; [|reflexivity|]; [reflexivity|].
  cbn beta. rewrite Hf. by destruct f.
Qed.

Lemma open_read_missing w p :
  files w !! p = None →
  open_read p w = (Raised (FileNotFoundError p) : outcome (file _ _ _ _ _), w, []).
Proof.
  intros Hf. unfold open_read.
  erewrite bind_ok; [|reflexivity|]; [reflexivity|].
  cbn beta. by rewrite Hf.
Qed.

Lemma open_write_ok w dir name content :
  files w !! dir = Some Dir → files w !! (dir </> name) ≠ Some Dir →
  open_write dir name content w
  = (Returned tt,
     {| self := self w; files := <[dir </> name := content]> (files w) |},
     []).
Proof.
  intros Hd Hf. unfold open_write.
  erewrite bind_ok; [|reflexivity|]; [reflexivity|].
  cbn beta. rewrite Hd.
  destruct (files w !! (dir </> name)) as [[]|]; done.
Qed.

Lemma read_csv_ok w p df :
  files w !! p = Some (Csv df) →
  pd_read_csv E (PStr p) w = (Returned df, w, []).
Proof.
  intros Hf. unfold pd_read_csv.
  erewrite bind_ok; [|by apply open_read_file|]; reflexivity.
Qed.

Lemma read_yaml_ok w p cfg :
  files w !! p = Some (Yaml cfg) →
  read_yaml (PStr p) w = (Returned cfg, w, []).
Proof.
  intros Hf. unfold read_yaml.
  erewrite bind_ok; [|by apply open_read_file|]; reflexivity.
Qed.

Lemma pickle_load_ok w p m :
  files w !! p = Some (Pickle m) →
  pickle_load p w = (Returned m, w, []).
Proof.
  intros Hf. unfold pickle_load.
  erewrite bind_ok; [|by apply open_read_file|]; reflexivity.
Qed.

Lemma json_load_ok w p doc :
  files w !! p = Some (Json doc) →
  json_load p w = (Returned doc, w, []).
Proof.
  intros Hf. unfold json_load.
  erewrite bind_ok; [|by apply open_read_file|]; reflexivity.
Qed.

(** *** Data preparation *)

Lemma nonempty_length (tg : list string) : tg ≠ [] → 0 < length tg.
Proof. destruct tg; simpl; [done|lia]. Qed.

(** Distinct targets that are all present: the arrays come back. *)
Lemma process_data_ok w tg dp df :
  target (self w) = PList tg → tg ≠ [] → NoDup tg →
  data_path (self w) = PStr dp →
  files w !! dp = Some (Csv df) →
  (∀ t, t ∈ tg → t ∈ frame_columns df) →
  _process_data E w
  = (Returned (Some (_reshape E (to_numpy (features_frame tg df)),
                     _reshape E (to_numpy (targets_frame tg df)))),
     {| self := set_features (Some (frame_columns df)) (self w);
        files := files w |},
     [LogEntry INFO "dataset shape" None;
      LogEntry INFO "y shape and x shape" None]).
Proof.
  intros Htg Hne Hnd Hdp Hf Hall.
  unfold _process_data.
  eapply (bind_ok _ _ _ _ _ []); [reflexivity|]. cbn beta. rewrite Htg.
  rewrite bool_decide_true by by apply nonempty_length.
  rewrite Hdp.
  eapply try_ok.
  eapply (bind_ok _ _ _ _ _ []); [by apply read_csv_ok|].
  eapply (bind_ok _ _ _ _ _ [_]); [reflexivity|].
  eapply (bind_ok _ _ _ _ _ []); [reflexivity|].
  rewrite bool_decide_false.
  2:{ rewrite Exists_exists. intros (t & Ht & Hn). by apply Hn, Hall. }
  rewrite pop_each_split by done.
  eapply (bind_ok _ _ _ _ _ []); [reflexivity|].
  eapply (bind_ok _ _ _ _ _ [_]); [reflexivity|].
  reflexivity.
Qed.

(** A target that is not a column: the error is logged and [None]
    comes back. *)
Lemma process_data_missing w tg dp df :
  target (self w) = PList tg →
  data_path (self w) = PStr dp →
  files w !! dp = Some (Csv df) →
  (∃ t, t ∈ tg ∧ t ∉ frame_columns df) →
  _process_data E w
  = (Returned None,
     {| self := set_features (Some (frame_columns df)) (self w);
        files := files w |},
     [LogEntry INFO "dataset shape" None;
      LogEntry ERROR "error occured while preparing the data"
        (Some (Exception
                 "chosen targets to predict must exist in the dataset"))]).
Proof.
  intros Htg Hdp Hf (t & Ht & Hmiss).
  unfold _process_data.
  eapply (bind_ok _ _ _ _ _ []); [reflexivity|]. cbn beta. rewrite Htg.
  rewrite bool_decide_true
    by (apply nonempty_length; intros ->; by apply not_elem_of_nil in Ht).
  rewrite Hdp.
  eapply (try_caught _ _ _ _ _ _ [_] _ _ [_]); [|reflexivity|].
  - eapply (bind_ok _ _ _ _ _ []); [by apply read_csv_ok|].
    eapply (bind_ok _ _ _ _ _ [_]); [reflexivity|].
    eapply (bind_ok _ _ _ _ _ []); [reflexivity|].
    rewrite bool_decide_true by (rewrite Exists_exists; eauto).
    reflexivity.
  - eapply (bind_ok _ _ _ _ _ [_]); reflexivity.
Qed.

(** *** A fit that goes through *)

(** The object that the constructor hands to [fit]. *)
Lemma construct_fit_ok args w p :
  fit_ready E args (files w) p →
  construct E "fit" args w
  = (Returned tt,
     {| self := set_model None (set_features None (fitted_self E p));
        files := files w |},
     [LogEntry INFO "CLI args" None; LogEntry INFO "Command" None;
      LogEntry INFO "model configuration" None]).
Proof.
  intros (Hyp & Hy & Hex & _ & Hdp & _).
  unfold construct, __init__.
  eapply (bind_ok _ _ _ _ _ []); [reflexivity|].
  eapply (bind_ok _ _ _ _ _ [_]); [reflexivity|].
  eapply (bind_ok _ _ _ _ _ [_]); [reflexivity|].
  eapply (bind_ok _ _ _ _ _ []); [reflexivity|].
  eapply (bind_ok _ _ _ _ _ []); [reflexivity|].
  eapply (bind_ok _ _ _ _ _ []); [reflexivity|].
  rewrite bool_decide_true by done. rewrite Hyp, Hdp.
  eapply (bind_ok _ _ _ _ _ []); [reflexivity|].
  eapply (bind_ok _ _ _ _ _ []); [by apply read_yaml_ok|].
  eapply (bind_ok _ _ _ _ _ []); [reflexivity|].
  eapply (bind_ok _ _ _ _ _ [_]); [reflexivity|].
  rewrite Hex.
  eapply (bind_ok _ _ _ _ _ []); [reflexivity|].
  eapply (bind_ok _ _ _ _ _ []); [reflexivity|].
  eapply (bind_ok _ _ _ _ _ []); [reflexivity|].
  reflexivity.
Qed.

Lemma save_model_ok w mdl :
  (files w !! results_dir E = Some Dir
   ∨ files w !! results_dir E = None ∧ files w !! cwd E = Some Dir) →
  files w !! model_file E ≠ Some Dir →
  ∃ lg,
    _save_model E mdl save_to w
    = (Returned (Some true),
       {| self := set_res_path (results_dir E) (self w);
          files := <[model_file E := Pickle mdl]>
                     (<[results_dir E := Dir]> (files w)) |},
       lg).
Proof.
  intros Hdir Hfile.
  destruct Hdir as [Hd|[Hd Hcwd]]; eexists; unfold _save_model;
    (eapply bind_ok; [reflexivity|]);
    (eapply bind_ok; [reflexivity|]); cbn beta.
  - eapply try_else_ok.
    + eapply bind_ok; [reflexivity|]. cbn beta. cbn [files].
      cbn [self res_path set_res_path]. fold (results_dir E).
      rewrite Hd. rewrite bool_decide_true by eauto. cbn [negb].
      eapply bind_ok; reflexivity.
    + eapply bind_ok; [reflexivity|].
      eapply bind_ok; [|reflexivity].
      unfold pickle_dump. cbn [self res_path set_res_path].
      rewrite open_write_ok; [|done|done].
      cbn [self files]. fold (results_dir E). fold (model_file E).
      by rewrite (insert_id (files w) (results_dir E) Dir).
  - eapply try_else_ok.
    + eapply bind_ok; [reflexivity|]. cbn beta. cbn [files].
      cbn [self res_path set_res_path]. fold (results_dir E).
      rewrite Hd. rewrite bool_decide_false by (by intros [? ?]).
      cbn [negb]. unfold os_mkdir.
      eapply bind_ok; [reflexivity|]. cbn beta. cbn [files].
      rewrite Hcwd. fold (results_dir E). rewrite Hd. reflexivity.
    + eapply bind_ok; [reflexivity|].
      eapply bind_ok; [|reflexivity].
      unfold pickle_dump. cbn [self res_path set_res_path].
      fold (results_dir E).
      rewrite open_write_ok; cbn [self files]; fold (model_file E).
      * reflexivity.
      * apply lookup_insert_eq.
      * rewrite lookup_insert_ne; [done|].
        unfold model_file. intros Heq. symmetry in Heq.
        by apply path_join_ne_dir in Heq.
Qed.

Lemma model_file_ne_results_dir : model_file E ≠ results_dir E.
Proof. apply path_join_ne_dir. Qed.

Lemma description_file_ne_results_dir : description_file E ≠ results_dir E.
Proof. apply path_join_ne_dir. Qed.

Lemma model_file_ne_description_file : model_file E ≠ description_file E.
Proof. by apply path_join_ne. Qed.

Lemma run_fit_ok args w p :
  fit_ready E args (files w) p →
  ∃ lg,
    run_fit E args w
    = (Returned tt,
       {| self := fitted_self E p; files := stored E p (files w) |}, lg).
Proof.
  intros Hready.
  pose proof (construct_fit_ok _ _ _ Hready) as Hc.
  destruct Hready as
    (_ & _ & _ & Hcm & _ & Hdata & Hne & Hnd & Hall & Hfit & Hdir & Hmf & Hdf).
  set (w1 := {| self := set_features (Some (frame_columns (plan_data p)))
                          (set_model (Some (fresh_model E p))
                             (set_model None
                                (set_features None (fitted_self E p))));
                files := files w |}).
  destruct (save_model_ok
              {| self := set_model (Some (fitted_model p)) (self w1);
                 files := files w |} (fitted_model p) Hdir Hmf)
    as [lgs Hsave].
  eexists. unfold run_fit.
  eapply bind_ok; [exact Hc|].
  unfold fit.
  eapply bind_ok; [reflexivity|]. cbn beta.
  cbn [self algorithm model_type set_model set_features fitted_self].
  eapply bind_ok; [reflexivity|].
  rewrite Hcm.
  eapply bind_ok; [reflexivity|].
  eapply bind_ok; [reflexivity|].
  eapply bind_ok; [reflexivity|].
  eapply bind_ok.
  { unfold _prepare_fit_data.
    apply (process_data_ok _ (plan_targets p) (plan_data_path p)
             (plan_data p)); done. }
  eapply bind_ok; [reflexivity|]. cbn [fst snd].
  unfold fresh_model in Hfit. rewrite Hfit.
  eapply bind_ok; [reflexivity|].
  eapply bind_ok; [reflexivity|].
  eapply bind_ok; [exact Hsave|].
  eapply bind_ok; [reflexivity|].
  eapply bind_ok; [reflexivity|]. cbn beta.
  eapply try_ok.
  eapply bind_ok; [reflexivity|].
  rewrite open_write_ok.
  - reflexivity.
  - cbn. rewrite lookup_insert_ne by apply model_file_ne_results_dir.
    apply lookup_insert_eq.
  - cbn. fold (description_file E).
    rewrite lookup_insert_ne by apply model_file_ne_description_file.
    rewrite lookup_insert_ne
      by apply not_eq_sym, description_file_ne_results_dir.
    done.
Qed.

(** ** The claims about [fit] and data preparation *)

(** C2.  When the dataset at [data_path] lacks one of the configured
    target columns, [fit] terminates (by raising) and the filesystem
    is left as it was: neither model.sav nor description.json is
    written. *)
Theorem fit_missing_target_writes_nothing w tg dp df :
  target (self w) = PList tg →
  data_path (self w) = PStr dp →
  files w !! dp = Some (Csv df) →
  (∃ t, t ∈ tg ∧ t ∉ frame_columns df) →
  ∃ e w' lg,
    fit E w = (Raised e, w', lg) ∧
    files w' = files w ∧
    files w' !! model_file E = files w !! model_file E ∧
    files w' !! description_file E = files w !! description_file E.
Proof.
  intros Htg Hdp Hf Hmiss. unfold fit.
  destruct (algorithm (self w)) as [alg|] eqn:Halg.
  - destruct (_create_model E (model_type (self w)) alg) as [cls|e] eqn:Hcm.
    + set (fresh := {| est_class := cls; est_state := class_new E cls |}).
      eexists _, _, _. split; [|shelve].
      eapply bind_ok; [reflexivity|]. cbn beta. rewrite Halg.
      eapply bind_ok; [reflexivity|]. rewrite Hcm.
      eapply bind_ok; [reflexivity|].
      eapply bind_ok; [reflexivity|].
      eapply bind_ok; [reflexivity|].
      eapply bind_ok.
      { unfold _prepare_fit_data.
        by apply (process_data_missing _ tg dp df). }
      eapply bind_raised. reflexivity.
    + eexists _, _, _. split; [|shelve].
      eapply bind_ok; [reflexivity|]. cbn beta. rewrite Halg.
      eapply bind_ok; [reflexivity|]. rewrite Hcm.
      eapply bind_raised. reflexivity.
  - eexists _, _, _. split; [|shelve].
    eapply bind_ok; [reflexivity|]. cbn beta. rewrite Halg.
    eapply bind_raised. reflexivity.
  Unshelve. all: done.
Qed.

Lemma labelled_single (t : string) (df : DataFrame cell) :
  NoDup (frame_columns df) → t ∈ frame_columns df →
  (labelled t df).*1 = [t].
Proof.
  unfold labelled, frame_columns.
  induction (df_cols df) as [|c cs IH]; intros Hnd Hin.
  - by apply not_elem_of_nil in Hin.
  - rewrite fmap_cons in Hnd, Hin. apply NoDup_cons in Hnd as [Hc Hnd].
    rewrite filter_cons. destruct (decide (c.1 = t)) as [Heq|Hneq].
    + rewrite fmap_cons, Heq. f_equal.
      destruct (filter (λ c0, c0.1 = t) cs) as [|c' cs'] eqn:Hfl; [done|].
      exfalso. apply Hc.
      assert (c' ∈ filter (λ c0, c0.1 = t) cs) as Hc'
        by (rewrite Hfl; left).
      apply list_elem_of_filter in Hc' as [Ht Hc'].
      rewrite Heq, <- Ht. apply list_elem_of_fmap. eauto.
    + apply IH; [done|].
      apply elem_of_cons in Hin as [Hin|Hin]; [congruence|done].
Qed.

(** The labels of the target part are the targets themselves, in the
    order of the list. *)
Lemma target_part_labels (tg : list string) (df : DataFrame cell) :
  NoDup (frame_columns df) → (∀ t, t ∈ tg → t ∈ frame_columns df) →
  (target_part tg df).*1 = tg.
Proof.
  intros Hnd. unfold target_part.
  induction tg as [|t tg IH]; intros Hall; [done|].
  rewrite fmap_cons. simpl. rewrite fmap_app.
  rewrite labelled_single; [|done|apply Hall; left].
  simpl. f_equal. apply IH. intros u Hu. apply Hall. by right.
Qed.

(** The labels of the feature part are the labels of the table that
    are no target, in the order of the table. *)
Lemma feature_part_labels (tg : list string) (df : DataFrame cell) :
  (feature_part tg df).*1 = filter (λ c, c ∉ tg) (frame_columns df).
Proof.
  unfold feature_part, frame_columns.
  induction (df_cols df) as [|c cs IH]; [done|].
  rewrite fmap_cons, !filter_cons.
  destruct (decide (c.1 ∉ tg)); [rewrite fmap_cons|]; by rewrite IH.
Qed.

(** C3 (amended).  When [target_columns] is a non-empty list of
    distinct labels that are all columns of the dataset, data
    preparation returns, as targets, the array of the target columns
    in the order of [target_columns], and, as features, the array of
    the remaining columns in their order in the dataset ([_reshape]
    leaving two-dimensional arrays as they are). *)
Theorem process_data_split w tg dp df :
  target (self w) = PList tg → tg ≠ [] → NoDup tg →
  data_path (self w) = PStr dp →
  files w !! dp = Some (Csv df) →
  (∀ t, t ∈ tg → t ∈ frame_columns df) →
  (∀ n cols, _reshape E (Arr2 n cols) = Arr2 n cols) →
  ∃ w' lg,
    _process_data E w
    = (Returned (Some (Arr2 (df_rows df) (feature_part tg df).*2,
                       Arr2 (df_rows df) (target_part tg df).*2)),
       w', lg) ∧
    files w' = files w ∧
    (feature_part tg df).*1 = filter (λ c, c ∉ tg) (frame_columns df) ∧
    (NoDup (frame_columns df) → (target_part tg df).*1 = tg).
Proof.
  intros Htg Hne Hnd Hdp Hf Hall Hre.
  eexists _, _. split; [|split; [|split]].
  - rewrite (process_data_ok w tg dp df) by done.
    unfold to_numpy, features_frame, targets_frame. cbn [df_rows df_cols].
    rewrite !Hre. reflexivity.
  - done.
  - apply feature_part_labels.
  - intros Hcols. by apply target_part_labels.
Qed.

(** C4.  Model resolution raises the assertion "model type is not
    supported" when the problem kind is not one of the two recognised
    kinds, and the exception "Model not found in the algorithms list"
    when the algorithm is not registered under the kind; in the second
    case [fit] raises that exception with the object, the filesystem
    and the log untouched. *)
Theorem model_resolution_failures :
  (∀ mt alg, py_in mt model_types = false →
     _create_model E mt alg
     = Raised (AssertionError "model type is not supported")) ∧
  (∀ kind algorithms name,
     kind ∈ model_types →
     models_dict E !! kind = Some algorithms →
     algorithms !! name = None →
     _create_model E (PStr kind) (PStr name)
     = Raised (Exception "Model not found in the algorithms list") ∧
     ∀ w, model_type (self w) = PStr kind →
          algorithm (self w) = Some (PStr name) →
          fit E w
          = (Raised (Exception "Model not found in the algorithms list"),
             w, [])).
Proof.
  split.
  - intros mt alg Hmt. unfold _create_model. by rewrite Hmt.
  - intros kind algorithms name Hkind Hreg Hname.
    assert (_create_model E (PStr kind) (PStr name)
            = Raised (Exception "Model not found in the algorithms list"))
      as Hcm.
    { unfold _create_model, py_in.
      rewrite bool_decide_true by done. cbn [negb].
      by rewrite Hreg, Hname. }
    split; [done|].
    intros w Hmt Halg. unfold fit.
    eapply (bind_ok _ _ _ _ _ [] _ _ []); [reflexivity|].
    cbn beta. rewrite Halg, Hmt.
    eapply (bind_ok _ _ _ _ _ [] _ _ []); [reflexivity|].
    rewrite Hcm. eapply bind_raised. reflexivity.
Qed.

(** ** Error handling of the command operations *)

(** A [try] whose handler catches every exception and only logs
    never raises. *)
Lemma try_log_total (body : RunM unit) text w :
  ∃ w' lg,
    try_except body is_Exception (λ e, logger ERROR text (Some e)) w
    = (Returned tt, w', lg).
Proof.
  unfold try_except, try_except_else.
  destruct (body w) as [[[[]|e] w1] l1]; cbn; eauto.
Qed.

Lemma try_log_caught (body : RunM unit) text w e w1 l1 :
  body w = (Raised e, w1, l1) →
  try_except body is_Exception (λ e, logger ERROR text (Some e)) w
  = (Returned tt, w1, (l1 ++ [LogEntry ERROR text (Some e)])%list).
Proof. intros Hb. by eapply try_caught. Qed.

(** C5 (amended).  [evaluate] and [predict] catch every exception
    raised in their body at the top of the operation, log it at error
    level and return without raising.  [fit] has no handler at its
    top: an exception of model resolution leaves [fit] and reaches the
    caller. *)
Theorem evaluate_predict_never_raise :
  (∀ kw w,
     (∃ w' lg, evaluate E kw w = (Returned tt, w', lg)) ∧
     (∀ e w1 l1,
        evaluate_body E kw w = (Raised e, w1, l1) →
        evaluate E kw w
        = (Returned tt, w1,
           (l1 ++ [LogEntry ERROR "error occured during evaluation"
                     (Some e)])%list))) ∧
  (∀ w,
     (∃ w' lg, predict E w = (Returned tt, w', lg)) ∧
     (∀ e w1 l1,
        predict_body E w = (Raised e, w1, l1) →
        predict E w
        = (Returned tt, w1,
           (l1 ++ [LogEntry ERROR "Error while preparing predictions"
                     (Some e)])%list))) ∧
  (∀ w alg e,
     algorithm (self w) = Some alg →
     _create_model E (model_type (self w)) alg = Raised e →
     fit E w = (Raised e, w, [])).
Proof.
  split; [|split].
  - intros kw w. split.
    + apply try_log_total.
    + intros e w1 l1. apply try_log_caught.
  - intros w. split.
    + apply try_log_total.
    + intros e w1 l1. apply try_log_caught.
  - intros w alg e Halg Hcm. unfold fit.
    eapply (bind_ok _ _ _ _ _ [] _ _ []); [reflexivity|].
    cbn beta. rewrite Halg.
    eapply (bind_ok _ _ _ _ _ [] _ _ []); [reflexivity|].
    rewrite Hcm. eapply bind_raised. reflexivity.
Qed.

(** *** The constructor outside the fit branch *)

Lemma construct_described cmd args w doc :
  cmd ≠ "fit" →
  files w !! description_file E = Some (Json doc) →
  construct E cmd args w
  = (Returned tt,
     {| self := described_self E cmd args doc; files := files w |},
     command_log cmd).
Proof.
  intros Hcmd Hdoc. unfold construct, __init__, command_log.
  eapply (bind_ok _ _ _ _ _ []); [reflexivity|].
  eapply (bind_ok _ _ _ _ _ [_]); [reflexivity|].
  eapply (bind_ok _ _ _ _ _ [_]); [reflexivity|].
  rewrite <- (app_nil_r (if bool_decide (cmd ∈ commands) then _ else _)).
  eapply bind_ok.
  { destruct (bool_decide (cmd ∈ commands)); reflexivity. }
  eapply (bind_ok _ _ _ _ _ []); [reflexivity|].
  eapply (bind_ok _ _ _ _ _ []); [reflexivity|].
  rewrite bool_decide_false by done.
  eapply (bind_ok _ _ _ _ _ []); [reflexivity|].
  eapply (bind_ok _ _ _ _ _ []); [reflexivity|].
  eapply (bind_ok _ _ _ _ _ []); [by apply json_load_ok|].
  eapply (bind_ok _ _ _ _ _ []); reflexivity.
Qed.

Lemma construct_undescribed cmd args w :
  cmd ≠ "fit" →
  files w !! description_file E = None →
  construct E cmd args w
  = (Raised (FileNotFoundError (description_file E)),
     {| self := set_model_path (args_get args "model_path")
                  (set_data_path (args_get args "data_path")
                     (set_command (PStr cmd) (new_instance E)));
        files := files w |},
     command_log cmd).
Proof.
  intros Hcmd Hdoc. unfold construct, __init__, command_log.
  eapply (bind_ok _ _ _ _ _ []); [reflexivity|].
  eapply (bind_ok _ _ _ _ _ [_]); [reflexivity|].
  eapply (bind_ok _ _ _ _ _ [_]); [reflexivity|].
  rewrite <- (app_nil_r (if bool_decide (cmd ∈ commands) then _ else _)).
  eapply bind_ok.
  { destruct (bool_decide (cmd ∈ commands)); reflexivity. }
  eapply (bind_ok _ _ _ _ _ []); [reflexivity|].
  eapply (bind_ok _ _ _ _ _ []); [reflexivity|].
  rewrite bool_decide_false by done.
  eapply (bind_ok _ _ _ _ _ []); [reflexivity|].
  eapply (bind_ok _ _ _ _ _ []); [reflexivity|].
  eapply bind_raised. unfold json_load.
  eapply bind_raised. by apply open_read_missing.
Qed.

(** C6.  When the results directory holds no description.json, an
    [evaluate] invocation fails with [FileNotFoundError] for that
    path, raised by the constructor, and the filesystem is left as it
    was: no evaluation.json is written. *)
Theorem evaluate_without_description args kw w :
  files w !! description_file E = None →
  ∃ w' lg,
    run_evaluate E args kw w
    = (Raised (FileNotFoundError (description_file E)), w', lg) ∧
    files w' = files w ∧
    files w' !! evaluation_file E = files w !! evaluation_file E.
Proof.
  intros Hdoc. eexists _, _. split.
  - unfold run_evaluate. eapply bind_raised.
    by apply construct_undescribed.
  - done.
Qed.

(** C9.  A command outside fit, evaluate and predict is not rejected:
    the constructor logs the error, stores the command and takes the
    branch that reads description.json in the results directory; with
    the document there the construction returns, without it the read
    raises [FileNotFoundError]. *)
Theorem unknown_command_constructs cmd args w :
  cmd ∉ commands →
  (∀ doc,
     files w !! description_file E = Some (Json doc) →
     construct E cmd args w
     = (Returned tt,
        {| self := described_self E cmd args doc; files := files w |},
        [LogEntry INFO "CLI args" None; LogEntry INFO "Command" None;
         LogEntry ERROR "Please choose an existing command" None])) ∧
  (files w !! description_file E = None →
   ∃ w',
     construct E cmd args w
     = (Raised (FileNotFoundError (description_file E)), w',
        [LogEntry INFO "CLI args" None; LogEntry INFO "Command" None;
         LogEntry ERROR "Please choose an existing command" None]) ∧
     command (self w') = PStr cmd ∧ files w' = files w).
Proof.
  intros Hcmd.
  assert (cmd ≠ "fit") as Hfit by (intros ->; apply Hcmd; left).
  assert (command_log cmd
          = [LogEntry INFO "CLI args" None; LogEntry INFO "Command" None;
             LogEntry ERROR "Please choose an existing command" None])
    as Hlog by (unfold command_log; by rewrite bool_decide_false).
  split.
  - intros doc Hdoc. rewrite <- Hlog. by apply construct_described.
  - intros Hdoc. eexists. split; [|split].
    + rewrite <- Hlog. by apply construct_undescribed.
    + done.
    + done.
Qed.

(** ** Predictions *)

Lemma paired_items_1d (keys : list string) i (v : list cell) :
  paired_items keys i (Arr1 v) = Returned ((λ k, (k, v)) <$> keys).
Proof.
  revert i. induction keys as [|k keys IH]; intros i; [done|].
  simpl. unfold paired_column. simpl. by rewrite IH.
Qed.

Lemma paired_items_2d (keys : list string) i n (cols : list (list cell)) :
  (i + length keys ≤ length cols)%nat →
  paired_items keys i (Arr2 n cols) = Returned (zip keys (drop i cols)).
Proof.
  revert i. induction keys as [|k keys IH]; intros i Hlen; [done|].
  simpl in Hlen. simpl. unfold paired_column. simpl.
  destruct (cols !! i) as [c|] eqn:Hc.
  - rewrite IH by lia. rewrite (drop_S _ _ _ Hc). done.
  - apply lookup_ge_None in Hc. lia.
Qed.

Lemma dict_set_fresh {V} k (v : V) d :
  k ∉ d.*1 → dict_set k v d = (d ++ [(k, v)])%list.
Proof.
  induction d as [|[k' v'] d IH]; intros Hk; [done|].
  simpl. rewrite fmap_cons in Hk. apply not_elem_of_cons in Hk as [Hne Hk].
  rewrite decide_False by done. by rewrite IH.
Qed.

Lemma dict_fold_nodup {V} (items acc : list (string * V)) :
  NoDup (acc.*1 ++ items.*1)%list →
  fold_left (λ d kv, dict_set kv.1 kv.2 d) items acc = (acc ++ items)%list.
Proof.
  revert acc. induction items as [|[k v] items IH]; intros acc Hnd.
  - by rewrite app_nil_r.
  - simpl. rewrite fmap_cons in Hnd. simpl in Hnd.
    rewrite dict_set_fresh.
    + rewrite IH.
      * by rewrite <- app_assoc.
      * rewrite fmap_app. simpl. by rewrite <- app_assoc.
    + apply NoDup_app in Hnd as (_ & Hdisj & _).
      intros Hin. apply (Hdisj k Hin). left.
Qed.

(** With distinct keys the dict holds the items as they came. *)
Lemma dict_of_items_nodup {V} (items : list (string * V)) :
  NoDup items.*1 → dict_of_items items = items.
Proof. intros Hnd. unfold dict_of_items. by rewrite dict_fold_nodup. Qed.

Lemma dict_set_elem {V} k (v : V) d c :
  c ∈ dict_set k v d → c = (k, v) ∨ c ∈ d.
Proof.
  induction d as [|[k' v'] d IH]; simpl.
  - intros ->%list_elem_of_singleton. by left.
  - destruct (decide (k' = k)).
    + intros [->|Hc]%elem_of_cons; [by left|]. right. by right.
    + intros [->|Hc]%elem_of_cons; [right; left|].
      destruct (IH Hc); [by left|]. right. by right.
Qed.

Lemma dict_set_keys {V} k (v : V) d k' :
  k' ∈ (dict_set k v d).*1 ↔ k' = k ∨ k' ∈ d.*1.
Proof.
  induction d as [|[k0 v0] d IH]; simpl.
  - rewrite list_elem_of_singleton, elem_of_nil. tauto.
  - destruct (decide (k0 = k)) as [->|Hne].
    + rewrite !fmap_cons, !elem_of_cons. simpl. tauto.
    + rewrite !fmap_cons, !elem_of_cons, IH. simpl. tauto.
Qed.

Lemma dict_fold_elem {V} (items acc : list (string * V)) c :
  c ∈ fold_left (λ d kv, dict_set kv.1 kv.2 d) items acc →
  c ∈ acc ∨ c ∈ items.
Proof.
  revert acc. induction items as [|[k v] items IH]; intros acc; simpl.
  - by left.
  - intros Hc. destruct (IH _ Hc) as [Hc'|Hc'].
    + apply dict_set_elem in Hc' as [->|Hc']; [right; left|by left].
    + right. by right.
Qed.

Lemma dict_fold_keys {V} (items acc : list (string * V)) k :
  k ∈ (fold_left (λ d kv, dict_set kv.1 kv.2 d) items acc).*1 ↔
  k ∈ acc.*1 ∨ k ∈ items.*1.
Proof.
  revert acc. induction items as [|[k0 v0] items IH]; intros acc; simpl.
  - rewrite elem_of_nil. tauto.
  - rewrite IH, dict_set_keys, elem_of_cons. tauto.
Qed.

(** One-dimensional predictions: every target becomes a column and
    every column holds the whole array. *)
Lemma predictions_frame_1d (tg : list string) (v : list cell) :
  ∃ pf,
    predictions_frame (PList tg) (Arr1 v) = Returned pf ∧
    (∀ t, t ∈ frame_columns pf ↔ t ∈ tg) ∧
    (∀ c, c ∈ df_cols pf → c.2 = v).
Proof.
  eexists. split; [|split].
  - unfold predictions_frame. simpl. rewrite paired_items_1d. reflexivity.
  - intros t. unfold frame_columns, from_dict, dict_of_items.
    cbn [df_cols]. rewrite dict_fold_keys, fmap_nil, elem_of_nil.
    rewrite <- list_fmap_compose.
    rewrite (list_fmap_ext _ id tg) by done. rewrite list_fmap_id. tauto.
  - intros c. unfold from_dict, dict_of_items. cbn [df_cols].
    intros [Hc|Hc]%dict_fold_elem; [by apply elem_of_nil in Hc|].
    apply list_elem_of_fmap in Hc as (k & -> & _). done.
Qed.

(** Two-dimensional predictions with distinct targets: the [i]-th
    target is paired with column [i]. *)
Lemma predictions_frame_2d (tg : list string) n (cols : list (list cell)) :
  NoDup tg → (length tg ≤ length cols)%nat →
  predictions_frame (PList tg) (Arr2 n cols)
  = Returned (from_dict (zip tg cols)).
Proof.
  intros Hnd Hlen. unfold predictions_frame. simpl.
  rewrite paired_items_2d by (simpl; lia). simpl.
  rewrite dict_of_items_nodup; [done|].
  rewrite fst_zip by done. done.
Qed.

Lemma predict_ok w mdl df raw pf :
  predict_ready E w mdl df raw →
  predictions_frame (target (self w)) (_reshape E raw) = Returned pf →
  ∃ lg,
    predict E w
    = (Returned tt,
       {| self := self w;
          files := <[res_path (self w) </> "predictions.csv"
                      := CsvIndexed pf]> (files w) |},
       lg).
Proof.
  intros (Hmp & Hmodel & (dp & Hdp & Hdata) & Hpred & Hdir & Hfile) Hframe.
  eexists. unfold predict. eapply try_ok. unfold predict_body.
  eapply bind_ok; [reflexivity|]. cbn beta.
  eapply bind_ok.
  { unfold _load_model.
    eapply bind_ok; [reflexivity|]. cbn beta.
    eapply try_ok. rewrite Hmp. cbn [negb].
    eapply bind_ok; [reflexivity|].
    eapply bind_ok; [reflexivity|].
    eapply bind_ok; [by apply pickle_load_ok|]. reflexivity. }
  eapply bind_ok.
  { unfold _prepare_predict_data.
    eapply bind_ok; [reflexivity|]. cbn beta. rewrite Hdp.
    eapply try_ok.
    eapply bind_ok; [by apply read_csv_ok|].
    eapply bind_ok; reflexivity. }
  cbn beta. rewrite Hpred.
  eapply bind_ok; [reflexivity|].
  eapply bind_ok; [reflexivity|].
  eapply bind_ok; [reflexivity|].
  eapply bind_ok; [reflexivity|].
  rewrite Hframe.
  eapply bind_ok; [reflexivity|].
  eapply bind_ok; [reflexivity|].
  unfold to_csv. destruct w as [s fs]. by apply open_write_ok.
Qed.

(** C10.  [predict] pairs the columns of the reshaped prediction with
    the targets by position only when that array is two-dimensional;
    when it is one-dimensional, every target becomes a column of
    predictions.csv and every column holds the whole array. *)
Theorem predict_pairing_by_dimension w mdl df raw tg :
  predict_ready E w mdl df raw →
  target (self w) = PList tg →
  (∀ v, _reshape E raw = Arr1 v →
     ∃ w' lg pf,
       predict E w = (Returned tt, w', lg) ∧
       files w' !! (res_path (self w) </> "predictions.csv")
       = Some (CsvIndexed pf) ∧
       (∀ t, t ∈ frame_columns pf ↔ t ∈ tg) ∧
       (∀ c, c ∈ df_cols pf → c.2 = v)) ∧
  (∀ n cols, _reshape E raw = Arr2 n cols →
     NoDup tg → (length tg ≤ length cols)%nat →
     ∃ w' lg pf,
       predict E w = (Returned tt, w', lg) ∧
       files w' !! (res_path (self w) </> "predictions.csv")
       = Some (CsvIndexed pf) ∧
       df_cols pf = zip tg cols).
Proof.
  intros Hready Htg. split.
  - intros v Hre.
    destruct (predictions_frame_1d tg v) as (pf & Hpf & Hkeys & Hvals).
    destruct (predict_ok w mdl df raw pf Hready) as [lg Hrun].
    { by rewrite Htg, Hre. }
    eexists _, _, pf. split; [exact Hrun|].
    split; [apply lookup_insert_eq|done].
  - intros n cols Hre Hnd Hlen.
    destruct (predict_ok w mdl df raw (from_dict (zip tg cols)) Hready)
      as [lg Hrun].
    { rewrite Htg, Hre. by apply predictions_frame_2d. }
    eexists _, _, _. split; [exact Hrun|].
    split; [apply lookup_insert_eq|done].
Qed.

(** ** The artifacts of a fit *)

Lemma stored_description p fs :
  stored E p fs !! description_file E
  = Some (Json (fit_description E (fitted_self E p) (fitted_model p))).
Proof. apply lookup_insert_eq. Qed.

Lemma stored_model p fs :
  stored E p fs !! model_file E = Some (Pickle (fitted_model p)).
Proof.
  unfold stored.
  rewrite lookup_insert_ne
    by apply not_eq_sym, model_file_ne_description_file.
  apply lookup_insert_eq.
Qed.

Lemma stored_results_dir p fs : stored E p fs !! results_dir E = Some Dir.
Proof.
  unfold stored.
  rewrite lookup_insert_ne by apply description_file_ne_results_dir.
  rewrite lookup_insert_ne by apply model_file_ne_results_dir.
  apply lookup_insert_eq.
Qed.

Lemma stored_other p fs k :
  k ≠ description_file E → k ≠ model_file E → k ≠ results_dir E →
  stored E p fs !! k = fs !! k.
Proof.
  intros H1 H2 H3. unfold stored.
  by rewrite !lookup_insert_ne by done.
Qed.

(** A path that holds a regular file before a fit is not the results
    directory. *)
Lemma input_ne_results_dir args fs p k f :
  fit_ready E args fs p → fs !! k = Some f → f ≠ Dir → k ≠ results_dir E.
Proof.
  intros (_ & _ & _ & _ & _ & _ & _ & _ & _ & _ & Hdir & _) Hk Hf ->.
  destruct Hdir as [Hd|[Hd _]]; congruence.
Qed.

Lemma fit_description_lookup s mdl :
  fit_description E s mdl !! "model"
    = Some (PStr (class_name E (est_class mdl))) ∧
  fit_description E s mdl !! "type" = Some (model_type s) ∧
  fit_description E s mdl !! "data_path" = Some (data_path s) ∧
  fit_description E s mdl !! "results_path" = Some (PStr (res_path s)) ∧
  fit_description E s mdl !! "model_path" = Some (PStr (res_path s)) ∧
  fit_description E s mdl !! "target" = Some (target s).
Proof.
  unfold fit_description.
  repeat split;
    repeat (rewrite lookup_insert_ne by done); apply lookup_insert_eq.
Qed.

(** C7.  After a fit that goes through, description.json holds a
    document with exactly the fields model, type, data_path,
    results_path, model_path and target: the class name of the
    algorithm, the problem kind, the dataset path, the results
    directory (twice) and the configured target columns. *)
Theorem fit_description_fields args w p :
  fit_ready E args (files w) p →
  ∃ w' lg doc,
    run_fit E args w = (Returned tt, w', lg) ∧
    files w' !! description_file E = Some (Json doc) ∧
    dom doc = list_to_set ["model"; "type"; "data_path"; "results_path";
                           "model_path"; "target"] ∧
    doc !! "model" = Some (PStr (class_name E (plan_class p))) ∧
    doc !! "type" = Some (plan_type p) ∧
    doc !! "data_path" = Some (PStr (plan_data_path p)) ∧
    doc !! "results_path" = Some (PStr (results_dir E)) ∧
    doc !! "model_path" = Some (PStr (results_dir E)) ∧
    doc !! "target" = Some (PList (plan_targets p)).
Proof.
  intros Hready. destruct (run_fit_ok args w p Hready) as [lg Hrun].
  eexists _, lg, _. split; [exact Hrun|].
  split; [apply stored_description|].
  split.
  - unfold fit_description. rewrite !dom_insert_L, dom_empty_L. simpl.
    set_solver.
  - apply (fit_description_lookup (fitted_self E p) (fitted_model p)).
Qed.

(** A [predict] invocation on the artifacts that a fit has stored:
    the constructor reads the description of that fit, [_load_model]
    reads its model, and the table built from the answer of that model
    is written to predictions.csv. *)
Lemma predict_after_fit args args' fs p s dp df raw pf :
  fit_ready E args fs p →
  args_get args' "data_path" = PStr dp →
  truthy (args_get args' "model_path") = false →
  fs !! dp = Some (Csv df) →
  dp ≠ model_file E →
  dp ≠ description_file E →
  fs !! predictions_file E ≠ Some Dir →
  model_predict E (fitted_model p) (Some (_reshape E (to_numpy df)))
  = Returned raw →
  predictions_frame (PList (plan_targets p)) (_reshape E raw) = Returned pf →
  ∃ w' l,
    run_predict E args' {| self := s; files := stored E p fs |}
    = (Returned tt, w', l) ∧
    files w' = <[predictions_file E := CsvIndexed pf]> (stored E p fs).
Proof.
  intros Hready Hdp Hmp Hdata Hdm Hdd Hpf Hpred Hframe.
  set (doc := fit_description E (fitted_self E p) (fitted_model p)).
  set (w2 := {| self := described_self E "predict" args' doc;
                files := stored E p fs |}).
  assert (predict_ready E w2 (fitted_model p) df raw) as Hpr.
  { repeat split.
    - exact Hmp.
    - apply stored_model.
    - exists dp. split; [exact Hdp|].
      cbn [files w2]. rewrite stored_other; [done..|].
      by eapply input_ne_results_dir.
    - exact Hpred.
    - apply stored_results_dir.
    - cbn [files self w2 res_path described_self].
      fold (predictions_file E). rewrite stored_other; [done| | |].
      + by apply path_join_ne.
      + by apply path_join_ne.
      + apply path_join_ne_dir. }
  assert (target (self w2) = PList (plan_targets p)) as Htg.
  { cbn [self w2 target described_self]. unfold dict_get, doc.
    by destruct (fit_description_lookup (fitted_self E p) (fitted_model p))
      as (_ & _ & _ & _ & _ & ->). }
  destruct (predict_ok w2 (fitted_model p) df raw pf Hpr) as [l2 Hrun].
  { by rewrite Htg. }
  eexists _, _. split.
  - unfold run_predict.
    eapply bind_ok; [|exact Hrun].
    apply construct_described; [done|]. apply stored_description.
  - done.
Qed.

(** C1 (amended).  For a valid configuration and dataset, [fit]
    followed by [predict] on a prediction input that the fitted
    estimator answers with one value per input row in each column and at
    least one column per target (the feature columns alone, for an
    estimator that checks the number of its features) leaves a
    predictions table whose column labels are the configured target
    columns, in their order, whose [i]-th column is column [i] of the
    prediction, and whose row count is the row count of the prediction
    input. *)
Theorem fit_then_predict_table args1 args2 w p dp df raw n cols :
  fit_ready E args1 (files w) p →
  args_get args2 "data_path" = PStr dp →
  truthy (args_get args2 "model_path") = false →
  files w !! dp = Some (Csv df) →
  dp ≠ model_file E →
  dp ≠ description_file E →
  files w !! predictions_file E ≠ Some Dir →
  model_predict E (fitted_model p) (Some (_reshape E (to_numpy df)))
  = Returned raw →
  _reshape E raw = Arr2 n cols →
  Forall (λ c, length c = df_rows df) cols →
  (length (plan_targets p) ≤ length cols)%nat →
  ∃ w' lg pf,
    bind (run_fit E args1) (λ _, run_predict E args2) w
    = (Returned tt, w', lg) ∧
    files w' !! predictions_file E = Some (CsvIndexed pf) ∧
    frame_columns pf = plan_targets p ∧
    df_rows pf = df_rows df ∧
    df_cols pf = zip (plan_targets p) cols.
Proof.
  intros Hready Hdp Hmp Hdata Hdm Hdd Hpf Hpred Hre Hrows Hlen.
  destruct (run_fit_ok args1 w p Hready) as [lg1 Hfit].
  pose proof Hready as
    (_ & _ & _ & _ & _ & _ & Hne & Hnd & _ & _ & _ & _ & _).
  destruct (predict_after_fit args1 args2 (files w) p (fitted_self E p)
              dp df raw (from_dict (zip (plan_targets p) cols)))
    as (w' & l2 & Hrun & Hfiles); try done.
  { rewrite Hre. by apply predictions_frame_2d. }
  exists w', (lg1 ++ l2)%list, (from_dict (zip (plan_targets p) cols)).
  split; [|split; [|split; [|split]]].
  - eapply bind_ok; [exact Hfit|exact Hrun].
  - rewrite Hfiles. apply lookup_insert_eq.
  - unfold frame_columns, from_dict. cbn [df_cols]. by apply fst_zip.
  - unfold from_dict. cbn [df_rows].
    destruct (plan_targets p) as [|t tg]; [done|].
    destruct cols as [|c cols]; [simpl in Hlen; lia|].
    simpl. by apply Forall_cons in Hrows as [Hc _].
  - done.
Qed.

(** A fit that is ready stays ready after another fit has stored its
    artifacts, as long as its own inputs are not those artifacts. *)
Lemma fit_ready_stored args1 args2 fs p1 p2 :
  fit_ready E args1 fs p1 →
  fit_ready E args2 fs p2 →
  plan_yaml_path p2 ≠ model_file E →
  plan_yaml_path p2 ≠ description_file E →
  plan_data_path p2 ≠ model_file E →
  plan_data_path p2 ≠ description_file E →
  fit_ready E args2 (stored E p1 fs) p2.
Proof.
  intros H1 H2 Hym Hyd Hdm Hdd.
  pose proof H2 as
    (Ha & Hy & Hex & Hcm & Hb & Hdata & Hne & Hnd & Hall & Hfit & _).
  repeat split; try done.
  - rewrite stored_other; [done..|]. by eapply input_ne_results_dir.
  - rewrite stored_other; [done..|]. by eapply input_ne_results_dir.
  - left. apply stored_results_dir.
  - by rewrite stored_model.
  - by rewrite stored_description.
Qed.

(** What a second fit stores hides what the first one stored. *)
Lemma stored_stored p1 p2 fs :
  stored E p2 (stored E p1 fs) = stored E p2 fs.
Proof.
  apply map_eq. intros k. unfold stored.
  rewrite !lookup_insert. repeat case_decide; done.
Qed.

(** C8.  Two fits in a row overwrite model.sav and description.json:
    the artifact store ends as if only the second fit had run, with the
    second model and the second description.  A [predict] that follows
    reflects the second fit alone: the table it writes is built from
    the answer of the second model and labelled by the targets of the
    second fit. *)
Theorem refit_overwrites args1 args2 w p1 p2 :
  fit_ready E args1 (files w) p1 →
  fit_ready E args2 (files w) p2 →
  plan_yaml_path p2 ≠ model_file E →
  plan_yaml_path p2 ≠ description_file E →
  plan_data_path p2 ≠ model_file E →
  plan_data_path p2 ≠ description_file E →
  ∃ w12 l12 w2 l2,
    bind (run_fit E args1) (λ _, run_fit E args2) w
    = (Returned tt, w12, l12) ∧
    run_fit E args2 w = (Returned tt, w2, l2) ∧
    files w12 = files w2 ∧
    files w12 !! model_file E = Some (Pickle (fitted_model p2)) ∧
    files w12 !! description_file E
    = Some (Json (fit_description E (fitted_self E p2) (fitted_model p2))) ∧
    ∀ args3 dp df raw pf,
      args_get args3 "data_path" = PStr dp →
      truthy (args_get args3 "model_path") = false →
      files w !! dp = Some (Csv df) →
      dp ≠ model_file E →
      dp ≠ description_file E →
      files w !! predictions_file E ≠ Some Dir →
      model_predict E (fitted_model p2) (Some (_reshape E (to_numpy df)))
      = Returned raw →
      predictions_frame (PList (plan_targets p2)) (_reshape E raw)
      = Returned pf →
      ∃ w3 l3,
        run_predict E args3 w12 = (Returned tt, w3, l3) ∧
        files w3 !! predictions_file E = Some (CsvIndexed pf).
Proof.
  intros H1 H2 Hym Hyd Hdm Hdd.
  destruct (run_fit_ok args1 w p1 H1) as [lg1 Hfit1].
  destruct (run_fit_ok args2 w p2 H2) as [lg2 Hfit2].
  set (w1 := {| self := fitted_self E p1; files := stored E p1 (files w) |}).
  destruct (run_fit_ok args2 w1 p2) as [lg12 Hfit12].
  { by apply (fit_ready_stored args1). }
  cbn [files w1] in Hfit12. rewrite stored_stored in Hfit12.
  eexists _, _, _, _. split; [|split; [exact Hfit2|]].
  - eapply bind_ok; [exact Hfit1|exact Hfit12].
  - split; [done|]. split; [apply stored_model|].
    split; [apply stored_description|].
    intros args3 dp df raw pf Hdp Hmp Hdata Hpm Hpd Hpf Hpred Hframe.
    destruct (predict_after_fit args2 args3 (files w) p2 (fitted_self E p2)
                dp df raw pf) as (w3 & l3 & Hrun & Hfiles); try done.
    exists w3, l3. split; [exact Hrun|].
    rewrite Hfiles. apply lookup_insert_eq.
Qed.

End Properties.

(** ** The properties on the concrete instance *)

Lemma fit_then_predict_table_witness :
  ∃ w' lg pf,
    bind (run_fit Checked.E Sample.args1)
      (λ _, run_predict Checked.E Checked.args_features) Checked.w0
    = (Returned tt, w', lg) ∧
    files w' !! predictions_file Checked.E = Some (CsvIndexed pf) ∧
    frame_columns pf = ["y2"; "y1"] ∧
    df_rows pf = 3 ∧
    df_cols pf = [("y2", [7; 7; 7]); ("y1", [7; 7; 7])]%Z.
Proof.
  apply (fit_then_predict_table Checked.E Sample.args1 Checked.args_features
           Checked.w0 Checked.plan "/w/features.csv" Checked.features
           (Arr2 3 [[7; 7; 7]; [7; 7; 7]]%Z) 3 [[7; 7; 7]; [7; 7; 7]]%Z);
    first [by_evaluation | sample_ready].
Defined.

(** C1, as stated, fails on the dataset that was fitted: [predict]
    hands every column of the file, the target columns among them, to
    the estimator, which was fitted on the feature columns alone.  An
    estimator that checks the number of its features raises; [predict]
    logs the error and no predictions table is written. *)
Lemma predict_on_fitted_dataset_writes_nothing :
  fit_ready Checked.E Sample.args1 Checked.fs0 Checked.plan ∧
  Checked.fit_then_predict_same.1.1 = Returned tt ∧
  files Checked.fit_then_predict_same.1.2 !! predictions_file Checked.E
  = None ∧
  last Checked.fit_then_predict_same.2
  = Some (LogEntry ERROR "Error while preparing predictions"
            (Some (ValueError
               "X has a different number of features than the estimator"))).
Proof.
  split; [sample_ready|].
  repeat split; vm_compute; reflexivity.
Qed.

Lemma fit_missing_target_writes_nothing_witness :
  ∃ e w' lg,
    fit Sample.E
      (Sample.configured Sample.E "regression" ["y1"; "price"]
         "LinearRegression")
    = (Raised e, w', lg) ∧
    files w' = Sample.fs0 ∧
    files w' !! model_file Sample.E = Sample.fs0 !! model_file Sample.E ∧
    files w' !! description_file Sample.E
    = Sample.fs0 !! description_file Sample.E.
Proof.
  apply (fit_missing_target_writes_nothing Sample.E
           (Sample.configured Sample.E "regression" ["y1"; "price"]
              "LinearRegression")
           ["y1"; "price"] "/w/data.csv" Sample.data);
    try by_evaluation.
  exists "price". split; by_evaluation.
Defined.

Lemma process_data_split_witness :
  ∃ w' lg,
    _process_data Sample.E
      (Sample.configured Sample.E "regression" ["y2"; "y1"]
         "LinearRegression")
    = (Returned (Some (Arr2 2 [[1; 2]; [5; 6]]%Z, Arr2 2 [[7; 8]; [3; 4]]%Z)),
       w', lg).
Proof.
  destruct (process_data_split Sample.E
              (Sample.configured Sample.E "regression" ["y2"; "y1"]
                 "LinearRegression")
              ["y2"; "y1"] "/w/data.csv" Sample.data)
    as (w' & lg & Hrun & _);
    first [ by_evaluation
          | apply Forall_forall; by_evaluation
          | intros n cols; reflexivity
          | exists w', lg; exact Hrun ].
Defined.

(** C3, as stated, fails when a target is listed twice: the dataset
    contains every configured target column, yet the second [pop] of
    the same label raises [KeyError], the [except] clause logs it, and
    data preparation returns [None] instead of the two arrays. *)
Lemma process_data_repeated_target :
  (∀ t, t ∈ ["y1"; "y1"] → t ∈ frame_columns Sample.data) ∧
  _process_data Sample.E
    (Sample.configured Sample.E "regression" ["y1"; "y1"] "LinearRegression")
  = (Returned None,
     {| self := set_features (Some ["x1"; "y1"; "x2"; "y2"])
                  (self (Sample.configured Sample.E "regression"
                           ["y1"; "y1"] "LinearRegression"));
        files := Sample.fs0 |},
     [LogEntry INFO "dataset shape" None;
      LogEntry ERROR "error occured while preparing the data"
        (Some (KeyError "y1"))]).
Proof.
  split.
  - apply Forall_forall. by_evaluation.
  - vm_compute. reflexivity.
Qed.

Lemma model_resolution_failures_witness :
  _create_model Sample.E (PStr "clustering") (PStr "KMeans")
  = Raised (AssertionError "model type is not supported") ∧
  _create_model Sample.E (PStr "regression") (PStr "KMeans")
  = Raised (Exception "Model not found in the algorithms list") ∧
  fit Sample.E (Sample.configured Sample.E "regression" ["y1"] "KMeans")
  = (Raised (Exception "Model not found in the algorithms list"),
     Sample.configured Sample.E "regression" ["y1"] "KMeans", []).
Proof.
  destruct (model_resolution_failures Sample.E) as [Hkind Halg].
  split; [apply Hkind; by_evaluation|].
  destruct (Halg "regression" {[ "LinearRegression" := "LinearRegression" ]}
              "KMeans") as [Hcm Hfit]; try by_evaluation.
  split; [exact Hcm|]. apply Hfit; by_evaluation.
Defined.

(** C5, as stated, fails for [fit]: with an algorithm that is not
    registered, the exception of model resolution leaves [fit] and
    reaches the caller, and nothing is logged. *)
Lemma fit_raises_to_caller :
  fit Sample.E (Sample.configured Sample.E "regression" ["y1"] "KMeans")
  = (Raised (Exception "Model not found in the algorithms list"),
     Sample.configured Sample.E "regression" ["y1"] "KMeans", []).
Proof. vm_compute. reflexivity. Qed.

Lemma evaluate_predict_never_raise_witness :
  (∃ w' lg, evaluate Sample.E tt Sample.w0 = (Returned tt, w', lg)) ∧
  (∃ w' lg, predict Sample.E Sample.w0 = (Returned tt, w', lg)) ∧
  fit Sample.E (Sample.configured Sample.E "regression" ["y1"] "KMeans")
  = (Raised (Exception "Model not found in the algorithms list"),
     Sample.configured Sample.E "regression" ["y1"] "KMeans", []).
Proof.
  destruct (evaluate_predict_never_raise Sample.E) as (Hev & Hpr & Hfit).
  split; [apply Hev|]. split; [apply Hpr|].
  apply (Hfit _ (PStr "KMeans")); by_evaluation.
Defined.

Lemma evaluate_without_description_witness :
  ∃ w' lg,
    run_evaluate Sample.E Sample.args1 tt Sample.w0
    = (Raised (FileNotFoundError "/w/model_results/description.json"),
       w', lg) ∧
    files w' = Sample.fs0 ∧
    files w' !! evaluation_file Sample.E
    = Sample.fs0 !! evaluation_file Sample.E.
Proof.
  apply (evaluate_without_description Sample.E Sample.args1 tt Sample.w0).
  by_evaluation.
Defined.

Lemma fit_description_fields_witness :
  ∃ w' lg doc,
    run_fit Sample.E Sample.args1 Sample.w0 = (Returned tt, w', lg) ∧
    files w' !! description_file Sample.E = Some (Json doc) ∧
    dom doc = list_to_set ["model"; "type"; "data_path"; "results_path";
                           "model_path"; "target"] ∧
    doc !! "model" = Some (PStr "LinearRegression") ∧
    doc !! "type" = Some (PStr "regression") ∧
    doc !! "data_path" = Some (PStr "/w/data.csv") ∧
    doc !! "results_path" = Some (PStr "/w/model_results") ∧
    doc !! "model_path" = Some (PStr "/w/model_results") ∧
    doc !! "target" = Some (PList ["y2"; "y1"]).
Proof.
  apply (fit_description_fields Sample.E Sample.args1 Sample.w0 Sample.plan1).
  sample_ready.
Defined.

Lemma refit_overwrites_witness :
  ∃ w12 l12 w2 l2,
    bind (run_fit Sample.E Sample.args1)
      (λ _, run_fit Sample.E Sample.args2) Sample.w0
    = (Returned tt, w12, l12) ∧
    run_fit Sample.E Sample.args2 Sample.w0 = (Returned tt, w2, l2) ∧
    files w12 = files w2 ∧
    files w12 !! model_file Sample.E
    = Some (Pickle (fitted_model Sample.plan2)) ∧
    files w12 !! description_file Sample.E
    = Some (Json (fit_description Sample.E
                    (fitted_self Sample.E Sample.plan2)
                    (fitted_model Sample.plan2))) ∧
    ∃ w3 l3,
      run_predict Sample.E Sample.args1 w12 = (Returned tt, w3, l3) ∧
      files w3 !! predictions_file Sample.E
      = Some (CsvIndexed {| df_rows := 2;
                            df_cols := [("y1", [7; 7]%Z)] |}).
Proof.
  destruct (refit_overwrites Sample.E Sample.args1 Sample.args2 Sample.w0
              Sample.plan1 Sample.plan2)
    as (w12 & l12 & w2 & l2 & Hboth & Hsecond & Hfiles & Hmodel & Hdoc
        & Hpredict);
    [first [by_evaluation | sample_ready] ..|].
  exists w12, l12, w2, l2. repeat (split; [done|]).
  apply (Hpredict Sample.args1 "/w/data.csv" Sample.data (Arr1 [7; 7]%Z));
    by_evaluation.
Defined.

Lemma unknown_command_constructs_witness :
  construct Sample.E "train" ∅ (Sample.w_fitted Sample.E 2)
  = (Returned tt,
     {| self := described_self Sample.E "train" ∅
                  {[ "target" := PList ["y1"; "y2"];
                     "type" := PStr "regression" ]};
        files := Sample.fs_fitted 2 |},
     [LogEntry INFO "CLI args" None; LogEntry INFO "Command" None;
      LogEntry ERROR "Please choose an existing command" None]) ∧
  ∃ w',
    construct Sample.E "train" ∅ Sample.w0
    = (Raised (FileNotFoundError "/w/model_results/description.json"), w',
       [LogEntry INFO "CLI args" None; LogEntry INFO "Command" None;
        LogEntry ERROR "Please choose an existing command" None]) ∧
    command (self w') = PStr "train" ∧ files w' = Sample.fs0.
Proof.
  split.
  - apply (unknown_command_constructs Sample.E "train" ∅
             (Sample.w_fitted Sample.E 2)); by_evaluation.
  - apply (unknown_command_constructs Sample.E "train" ∅ Sample.w0);
      by_evaluation.
Defined.

Lemma predict_pairing_by_dimension_witness :
  (∃ w' lg pf,
     predict Sample.E_raw (Sample.w_fitted Sample.E_raw 1)
     = (Returned tt, w', lg) ∧
     files w' !! "/w/model_results/predictions.csv" = Some (CsvIndexed pf) ∧
     (∀ t, t ∈ frame_columns pf ↔ t ∈ ["y1"; "y2"]) ∧
     (∀ c, c ∈ df_cols pf → c.2 = [7; 7]%Z)) ∧
  (∃ w' lg pf,
     predict Sample.E (Sample.w_fitted Sample.E 2) = (Returned tt, w', lg) ∧
     files w' !! "/w/model_results/predictions.csv" = Some (CsvIndexed pf) ∧
     df_cols pf = [("y1", [7; 7]); ("y2", [7; 7])]%Z).
Proof.
  split.
  - apply (predict_pairing_by_dimension Sample.E_raw
             (Sample.w_fitted Sample.E_raw 1)
             {| est_class := "LinearRegression"; est_state := 1 |}
             Sample.data (Arr1 [7; 7]%Z) ["y1"; "y2"]);
      try by_evaluation.
    repeat split; try by_evaluation.
    exists "/w/data.csv". split; by_evaluation.
  - destruct (predict_pairing_by_dimension Sample.E
                (Sample.w_fitted Sample.E 2)
                {| est_class := "LinearRegression"; est_state := 2 |}
                Sample.data (Arr2 2 [[7; 7]; [7; 7]]%Z) ["y1"; "y2"])
      as [_ H2d]; try by_evaluation.
    + repeat split; try by_evaluation.
      exists "/w/data.csv". split; by_evaluation.
    + apply (H2d 2 [[7; 7]; [7; 7]]%Z); by_evaluation.
Defined.

(** * Further properties of the orchestrator *)

Section MoreProperties.
Context {cell model_class model_state yaml metrics kwargs : Type}.
Variable E : Collaborators cell model_class model_state yaml metrics kwargs.
Abbreviation World' := (world cell model_class model_state yaml metrics).
Abbreviation RunM' := (@Run cell model_class model_state yaml metrics).
Implicit Types (w : World').

(** Case analysis on every branch an unfolded run can take. *)
Ltac run_cases H :=
  repeat (cbn in H; first
    [ progress simplify_eq
    | match type of H with
      | context [match ?x with _ => _ end] =>
          lazymatch x with
          | context [match _ with _ => _ end] => fail
          | _ => destruct x eqn:?
          end
      end ]).

Ltac unfold_run H :=
  unfold pd_read_csv, read_yaml, pickle_load, pickle_dump, json_load, to_csv,
    open_read, open_write, os_mkdir, os_path_exists, unpack,
    try_except, try_except_else, bind, lift, ret, raise, logger,
    get_self, modify_self, get_files, put_files in H.

(** ** Model resolution *)

(** [_create_model] returns a class exactly for a recognised problem
    kind and an algorithm name registered under it. *)
Theorem create_model_resolves_iff mt alg cls :
  _create_model E mt alg = Returned cls ↔
  ∃ kind name algorithms,
    mt = PStr kind ∧ alg = PStr name ∧ kind ∈ model_types ∧
    models_dict E !! kind = Some algorithms ∧ algorithms !! name = Some cls.
Proof.
  unfold _create_model, py_in. split.
  - intros H. destruct mt as [|kind|]; try discriminate.
    destruct (bool_decide (kind ∈ model_types)) eqn:Hk; [|discriminate].
    apply bool_decide_eq_true in Hk. cbn [negb] in H.
    destruct (models_dict E !! kind) as [algorithms|] eqn:Hreg;
      [|discriminate].
    destruct alg as [|name|]; try discriminate.
    destruct (algorithms !! name) as [c|] eqn:Hname; [|discriminate].
    injection H as ->. eauto 10.
  - intros (kind & name & algorithms & -> & -> & Hk & Hreg & Hname).
    rewrite bool_decide_true by done. cbn [negb].
    by rewrite Hreg, Hname.
Qed.

(** ** Loading and saving the model *)



(** An explicit [model_path] is what [_load_model] reads, whatever lies
    in the results directory; [None] or the empty string falls back to
    [model.sav] there. *)
Theorem load_model_path_choice w :
  (∀ p m, p ≠ "" → files w !! p = Some (Pickle m) →
          ∃ l, _load_model (PStr p) w = (Returned (Some m), w, l)) ∧
  (∀ f m, truthy f = false →
          files w !! (res_path (self w) </> save_to) = Some (Pickle m) →
          ∃ l, _load_model f w = (Returned (Some m), w, l)).
Proof.
  split.
  - intros p m Hp Hm. eexists. unfold _load_model.
    eapply bind_ok; [reflexivity|]. cbn beta.
    assert (truthy (PStr p) = true) as ->.
    { simpl. destruct p; [done|reflexivity]. }
    cbn [negb]. eapply try_ok.
    eapply bind_ok; [reflexivity|].
    eapply bind_ok; [by apply pickle_load_ok|]. reflexivity.
  - intros f m Hf Hm. eexists. unfold _load_model.
    eapply bind_ok; [reflexivity|]. cbn beta.
    rewrite Hf. cbn [negb]. eapply try_ok.
    eapply bind_ok; [reflexivity|].
    eapply bind_ok; [reflexivity|].
    eapply bind_ok; [by apply pickle_load_ok|]. reflexivity.
Qed.

(** Whenever [_save_model] returns [True], the results directory
    exists, [model.sav] in it holds the model, and [_load_model] with no
    explicit path returns that model. *)
Theorem save_then_load_round_trip w mdl w1 l1 :
  _save_model E mdl save_to w = (Returned (Some true), w1, l1) →
  files w1 !! results_dir E = Some Dir ∧
  files w1 !! model_file E = Some (Pickle mdl) ∧
  ∃ l2, _load_model PNone w1 = (Returned (Some mdl), w1, l2).
Proof.
  intros H.
  assert (res_path (self w1) = results_dir E ∧
          files w1 !! results_dir E = Some Dir ∧
          files w1 !! model_file E = Some (Pickle mdl)) as (Hres & Hdir & Hm).
  { unfold _save_model in H. unfold_run H. run_cases H.
    all: cbn; fold (results_dir E); fold (model_file E).
    all: repeat split; try done.
    all: rewrite ?lookup_insert_eq; try done.
    all: rewrite ?(lookup_insert_ne _ (model_file E) (results_dir E))
           by apply model_file_ne_results_dir.
    all: rewrite ?lookup_insert_eq; try done.
    all: match goal with
         | H : bool_decide (is_Some _) = true |- _ =>
             apply bool_decide_eq_true in H; destruct H as [? ?]
         end; congruence. }
  split; [done|]. split; [done|].
  destruct (load_model_path_choice w1) as [_ Hdef].
  apply (Hdef PNone mdl); [done|]. by rewrite Hres.
Qed.

(** ** [fit] after training *)

Lemma fit_after_training w cls tg df st r w' l2 :
  fit_trains E w cls tg df st →
  fit_persist E {| est_class := cls; est_state := st |}
    {| self := trained_self E w cls df st; files := files w |}
  = (r, w', l2) →
  fit E w
  = (r, w',
     ([LogEntry INFO "executing a algorithm .." None;
       LogEntry INFO "dataset shape" None;
       LogEntry INFO "y shape and x shape" None] ++ l2)%list).
Proof.
  intros ((alg & Halg & Hcm) & Htg & Hne & Hnd & (dp & Hdp & Hdata)
          & Hall & Hfit) Hpersist.
  unfold fit.
  eapply (bind_ok _ _ _ _ _ []); [reflexivity|]. cbn beta. rewrite Halg.
  eapply (bind_ok _ _ _ _ _ []); [reflexivity|]. rewrite Hcm.
  eapply (bind_ok _ _ _ _ _ []); [reflexivity|].
  eapply (bind_ok _ _ _ _ _ []); [reflexivity|].
  eapply (bind_ok _ _ _ _ _ [_]); [reflexivity|].
  eapply (bind_ok _ _ _ _ _ [_; _]).
  { unfold _prepare_fit_data. by apply (process_data_ok E _ tg dp df). }
  eapply (bind_ok _ _ _ _ _ []); [reflexivity|]. cbn [fst snd].
  rewrite Hfit.
  eapply (bind_ok _ _ _ _ _ []); [reflexivity|].
  eapply (bind_ok _ _ _ _ _ []); [reflexivity|].
  exact Hpersist.
Qed.

(** When the results path exists but is a regular file, [_save_model]
    skips the directory creation and the dump of the model raises; the
    [else] clause has no handler, so the exception leaves [fit], with
    the filesystem as it was. *)
Theorem fit_results_path_is_file_raises w cls tg df st fl :
  fit_trains E w cls tg df st →
  files w !! results_dir E = Some fl → fl ≠ Dir →
  ∃ w' l,
    fit E w = (Raised (NotADirectoryError (model_file E)), w', l) ∧
    files w' = files w.
Proof.
  intros Htrain Hres Hfl.
  eexists _, _. split.
  - eapply fit_after_training; [exact Htrain|].
    unfold fit_persist, _save_model.
    eapply bind_raised.
    eapply bind_ok; [reflexivity|].
    eapply bind_ok; [reflexivity|]. cbn beta.
    eapply try_else_ok.
    + eapply bind_ok; [reflexivity|]. cbn beta.
      cbn [files self res_path set_res_path]. fold (results_dir E).
      rewrite Hres. rewrite bool_decide_true by eauto. cbn [negb].
      eapply bind_ok; reflexivity.
    + eapply bind_ok; [reflexivity|].
      eapply bind_raised.
      unfold pickle_dump, open_write.
      eapply bind_ok; [reflexivity|]. cbn beta.
      cbn [files self res_path set_res_path]. fold (results_dir E).
      rewrite Hres. fold (model_file E). by destruct fl.
  - done.
Qed.

(** When only the description cannot be written (a directory lies at
    its path), [fit] still returns normally: model.sav is stored, the
    failure is logged, and description.json is not created. *)
Theorem fit_description_failure_keeps_model w cls tg df st :
  fit_trains E w cls tg df st →
  files w !! results_dir E = Some Dir →
  files w !! model_file E ≠ Some Dir →
  files w !! description_file E = Some Dir →
  ∃ w' l,
    fit E w = (Returned tt, w', l) ∧
    files w' = <[model_file E := Pickle {| est_class := cls;
                                           est_state := st |}]> (files w) ∧
    files w' !! description_file E = Some Dir ∧
    LogEntry ERROR "Error while storing the fit description file"
      (Some (IsADirectoryError (description_file E))) ∈ l.
Proof.
  intros Htrain Hres Hmf Hdf.
  set (mdl := {| est_class := cls; est_state := st |}).
  destruct (save_model_ok E
              {| self := trained_self E w cls df st; files := files w |}
              mdl (or_introl Hres) Hmf) as [ls Hsave].
  cbn [files] in Hsave.
  rewrite (insert_id (files w) (results_dir E) Dir) in Hsave by done.
  assert (<[model_file E := Pickle mdl]> (files w) !! description_file E
          = Some Dir) as Hdf'.
  { by rewrite lookup_insert_ne by apply model_file_ne_description_file. }
  eexists _, _. split; [|split; [|split]].
  - eapply fit_after_training; [exact Htrain|].
    unfold fit_persist.
    eapply bind_ok; [exact Hsave|].
    eapply bind_ok; [reflexivity|].
    eapply bind_ok; [reflexivity|]. cbn beta.
    eapply try_caught.
    + eapply bind_ok; [reflexivity|].
      unfold open_write.
      eapply bind_ok; [reflexivity|]. cbn beta.
      cbn [files self res_path set_res_path]. fold (description_file E).
      rewrite lookup_insert_ne by apply model_file_ne_results_dir.
      rewrite Hres, Hdf'. reflexivity.
    + reflexivity.
    + reflexivity.
  - done.
  - exact Hdf'.
  - set_solver.
Qed.

(** When the estimator's [fit] raises, the exception leaves [fit]
    before anything is persisted. *)
Theorem fit_training_failure_writes_nothing w alg cls tg dp df e :
  algorithm (self w) = Some alg →
  _create_model E (model_type (self w)) alg = Returned cls →
  target (self w) = PList tg → tg ≠ [] → NoDup tg →
  data_path (self w) = PStr dp → files w !! dp = Some (Csv df) →
  (∀ t, t ∈ tg → t ∈ frame_columns df) →
  model_fit E {| est_class := cls; est_state := class_new E cls |}
    (_reshape E (to_numpy (features_frame tg df)))
    (_reshape E (to_numpy (targets_frame tg df)))
  = Raised e →
  ∃ w' l, fit E w = (Raised e, w', l) ∧ files w' = files w.
Proof.
  intros Halg Hcm Htg Hne Hnd Hdp Hdata Hall Hfit.
  eexists _, _. split.
  - unfold fit.
    eapply bind_ok; [reflexivity|]. cbn beta. rewrite Halg.
    eapply bind_ok; [reflexivity|]. rewrite Hcm.
    eapply bind_ok; [reflexivity|].
    eapply bind_ok; [reflexivity|].
    eapply bind_ok; [reflexivity|].
    eapply bind_ok.
    { unfold _prepare_fit_data. by apply (process_data_ok E _ tg dp df). }
    eapply bind_ok; [reflexivity|]. cbn [fst snd].
    eapply bind_raised. rewrite Hfit. reflexivity.
  - done.
Qed.

(** Whatever happens, [fit] touches at most three paths: the results
    directory, model.sav and description.json in it.  Every other path,
    the dataset and the configuration among them, is left as it was. *)
Theorem fit_touches_only_artifacts w r w' l k :
  fit E w = (r, w', l) →
  k ≠ results_dir E → k ≠ model_file E → k ≠ description_file E →
  files w' !! k = files w !! k.
Proof.
  intros H H1 H2 H3.
  unfold fit, _prepare_fit_data, _process_data, _save_model, _create_model
    in H.
  unfold_run H. run_cases H.
  all: cbn; try done.
  all: rewrite ?lookup_insert_ne; done.
Qed.

(** ** [evaluate] *)

(** With the model stored, the description's targets present in the
    dataset and both collaborators answering, [evaluate] writes
    evaluation.json: the metrics of the estimator's raw prediction on
    the features against the targets array. *)
Theorem evaluate_writes_metrics w kw mdl tg dp df y_pred res :
  truthy (model_path (self w)) = false →
  files w !! (res_path (self w) </> save_to) = Some (Pickle mdl) →
  target (self w) = PList tg → tg ≠ [] → NoDup tg →
  data_path (self w) = PStr dp → files w !! dp = Some (Csv df) →
  (∀ t, t ∈ tg → t ∈ frame_columns df) →
  model_predict E mdl
    (Some (_reshape E (to_numpy (features_frame tg df)))) = Returned y_pred →
  evaluate_model E (model_type (self w)) y_pred
    (_reshape E (to_numpy (targets_frame tg df))) kw = Returned res →
  files w !! res_path (self w) = Some Dir →
  files w !! (res_path (self w) </> "evaluation.json") ≠ Some Dir →
  ∃ l,
    evaluate E kw w
    = (Returned tt,
       {| self := set_features (Some (frame_columns df)) (self w);
          files := <[res_path (self w) </> "evaluation.json"
                      := MetricsJson res]> (files w) |},
       l).
Proof.
  intros Hmp Hmodel Htg Hne Hnd Hdp Hdata Hall Hpred Heval Hdir Hfile.
  eexists. unfold evaluate. eapply try_ok. unfold evaluate_body.
  eapply bind_ok; [reflexivity|]. cbn beta.
  eapply bind_ok.
  { unfold _load_model.
    eapply bind_ok; [reflexivity|]. cbn beta.
    rewrite Hmp. cbn [negb]. eapply try_ok.
    eapply bind_ok; [reflexivity|].
    eapply bind_ok; [reflexivity|].
    eapply bind_ok; [by apply pickle_load_ok|]. reflexivity. }
  eapply bind_ok.
  { unfold _prepare_val_data. by apply (process_data_ok E _ tg dp df). }
  eapply bind_ok; [reflexivity|]. cbn [fst snd].
  rewrite Hpred.
  eapply bind_ok; [reflexivity|].
  rewrite Heval.
  eapply bind_ok; [reflexivity|].
  eapply bind_ok; [reflexivity|].
  rewrite open_write_ok; [reflexivity|done|done].
Qed.

(** [evaluate] always returns without raising, and whatever it does,
    every path other than evaluation.json in the results directory holds
    afterwards what it held before. *)
Theorem evaluate_touches_only_evaluation kw w :
  ∃ w' l,
    evaluate E kw w = (Returned tt, w', l) ∧
    ∀ k, k ≠ res_path (self w) </> "evaluation.json" →
         files w' !! k = files w !! k.
Proof.
  destruct (evaluate E kw w) as [[r w'] l] eqn:H.
  unfold evaluate, evaluate_body, _load_model, _prepare_val_data,
    _process_data in H.
  unfold_run H. run_cases H.
  all: eexists _, _; (split; [reflexivity|]); intros k Hk; cbn.
  all: rewrite ?lookup_insert_ne; done.
Qed.

(** ** [predict] *)

(** [predict] always returns, and it either leaves the filesystem as it
    was or adds exactly predictions.csv, a table saved with its index,
    to the results directory; when its body fails the filesystem is as
    it was. *)
Theorem predict_writes_table_or_nothing w :
  (∃ w' l,
     predict E w = (Returned tt, w', l) ∧
     (files w' = files w
      ∨ ∃ pf, files w'
              = <[res_path (self w) </> "predictions.csv"
                    := CsvIndexed pf]> (files w))) ∧
  (∀ e w1 l1, predict_body E w = (Raised e, w1, l1) → files w1 = files w).
Proof.
  split.
  - destruct (predict E w) as [[r w'] l] eqn:H.
    unfold predict, predict_body, _load_model, _prepare_predict_data in H.
    unfold_run H. run_cases H.
    all: eexists _, _; (split; [reflexivity|]); cbn; eauto.
  - intros e w1 l1 H.
    unfold predict_body, _load_model, _prepare_predict_data in H.
    unfold_run H. run_cases H.
    all: reflexivity.
Qed.

Lemma paired_items_short (keys : list string) i n (cols : list (list cell)) :
  (i ≤ length cols)%nat → (length cols < i + length keys)%nat →
  paired_items keys i (Arr2 n cols) = Raised IndexError.
Proof.
  revert i. induction keys as [|k keys IH]; intros i Hi Hlen.
  - simpl in Hlen. lia.
  - simpl. unfold paired_column. simpl.
    destruct (cols !! i) as [c|] eqn:Hc; [|done].
    apply lookup_lt_Some in Hc.
    rewrite IH; [done|lia|simpl in Hlen; lia].
Qed.

(** When the reshaped prediction has fewer columns than there are
    targets, slicing the missing column raises [IndexError]; [predict]
    logs it and writes nothing. *)
Theorem predict_too_few_columns w mdl df raw tg n cols :
  predict_ready E w mdl df raw →
  target (self w) = PList tg →
  _reshape E raw = Arr2 n cols →
  (length cols < length tg)%nat →
  ∃ l,
    predict E w
    = (Returned tt, w,
       (l ++ [LogEntry ERROR "Error while preparing predictions"
                (Some IndexError)])%list).
Proof.
  intros (Hmp & Hmodel & (dp & Hdp & Hdata) & Hpred & Hdir & Hfile)
    Htg Hre Hlen.
  eexists. unfold predict. eapply try_caught; [|reflexivity|reflexivity].
  unfold predict_body.
  eapply bind_ok; [reflexivity|]. cbn beta.
  eapply bind_ok.
  { unfold _load_model.
    eapply bind_ok; [reflexivity|]. cbn beta.
    eapply try_ok. rewrite Hmp. cbn [negb].
    eapply bind_ok; [reflexivity|].
    eapply bind_ok; [reflexivity|].
    eapply bind_ok; [by apply pickle_load_ok|]. reflexivity. }
  eapply bind_ok.
  { unfold _prepare_predict_data.
    eapply bind_ok; [reflexivity|]. cbn beta. rewrite Hdp.
    eapply try_ok.
    eapply bind_ok; [by apply read_csv_ok|].
    eapply bind_ok; reflexivity. }
  cbn beta. rewrite Hpred.
  eapply bind_ok; [reflexivity|].
  eapply bind_ok; [reflexivity|].
  eapply bind_ok; [reflexivity|].
  eapply bind_ok; [reflexivity|].
  rewrite Htg, Hre. unfold predictions_frame. simpl.
  rewrite paired_items_short by (simpl; lia). simpl.
  eapply bind_raised. destruct w. reflexivity.
Qed.

(** When the prediction data cannot be read, [_prepare_predict_data]
    logs the error and hands [None] on: the estimator is asked to
    predict on [None], and what it raises is logged by [predict]. *)
Theorem predict_unreadable_data w mdl dp e :
  truthy (model_path (self w)) = false →
  files w !! (res_path (self w) </> save_to) = Some (Pickle mdl) →
  data_path (self w) = PStr dp → files w !! dp = None →
  model_predict E mdl None = Raised e →
  predict E w
  = (Returned tt, w,
     [LogEntry INFO "result path | saved to" None;
      LogEntry INFO "loading model form" None;
      LogEntry ERROR "exception while preparing prediction data"
        (Some (FileNotFoundError dp));
      LogEntry ERROR "Error while preparing predictions" (Some e)]).
Proof.
  intros Hmp Hmodel Hdp Hdata Hpred.
  unfold predict.
  eapply (try_caught _ _ _ _ _ _ [_; _; _] _ _ [_]);
    [|reflexivity|reflexivity].
  unfold predict_body.
  eapply (bind_ok _ _ _ _ _ []); [reflexivity|]. cbn beta.
  eapply (bind_ok _ _ _ _ _ [_; _]).
  { unfold _load_model.
    eapply (bind_ok _ _ _ _ _ []); [reflexivity|]. cbn beta.
    eapply try_ok. rewrite Hmp. cbn [negb].
    eapply (bind_ok _ _ _ _ _ [_]); [reflexivity|].
    eapply (bind_ok _ _ _ _ _ [_]); [reflexivity|].
    eapply (bind_ok _ _ _ _ _ []); [by apply pickle_load_ok|]. reflexivity. }
  eapply (bind_ok _ _ _ _ _ [_]).
  { unfold _prepare_predict_data.
    eapply (bind_ok _ _ _ _ _ []); [reflexivity|]. cbn beta. rewrite Hdp.
    eapply (try_caught _ _ _ _ _ _ [] _ _ [_]).
    - eapply bind_raised. unfold pd_read_csv.
      eapply bind_raised. by apply open_read_missing.
    - reflexivity.
    - eapply (bind_ok _ _ _ _ _ [_]); reflexivity. }
  cbn beta. rewrite Hpred.
  eapply bind_raised. destruct w. reflexivity.
Qed.

Lemma dict_set_nodup {V} k (v : V) d :
  NoDup d.*1 → NoDup (dict_set k v d).*1.
Proof.
  induction d as [|[k' v'] d IH]; intros Hnd.
  - simpl. apply NoDup_singleton.
  - simpl. destruct (decide (k' = k)) as [->|Hne]; [done|].
    rewrite fmap_cons in Hnd. apply NoDup_cons in Hnd as [Hk' Hnd].
    rewrite fmap_cons. apply NoDup_cons. split; [|by apply IH].
    simpl. rewrite dict_set_keys. intros [?|?]; [congruence|done].
Qed.

Lemma dict_fold_keys_nodup {V} (items acc : list (string * V)) :
  NoDup acc.*1 →
  NoDup (fold_left (λ d kv, dict_set kv.1 kv.2 d) items acc).*1.
Proof.
  revert acc. induction items as [|[k v] items IH]; intros acc Hnd; [done|].
  simpl. apply IH. by apply dict_set_nodup.
Qed.

(** The predictions table never has two columns with the same label:
    the columns are the keys of a dict, so a target listed twice gives
    one column. *)
Theorem predictions_labels_distinct (t : pyval) (y : ndarray cell) pf :
  predictions_frame t y = Returned pf → NoDup (frame_columns pf).
Proof.
  unfold predictions_frame, obind. intros H.
  destruct (target_items t) as [keys|]; [|discriminate].
  destruct (paired_items keys 0 y) as [items|]; [|discriminate].
  injection H as <-. unfold frame_columns, from_dict, dict_of_items.
  cbn [df_cols]. apply dict_fold_keys_nodup. simpl. apply NoDup_nil_2.
Qed.

(** ** Data preparation at its edges *)

Lemma popped_label_gone (t : string) (cs : list (string * list cell)) :
  t ∉ (filter (λ c, c.1 ≠ t) cs).*1.
Proof.
  intros (c & Hc & Hin)%list_elem_of_fmap.
  apply list_elem_of_filter in Hin as [Hne _]. by apply Hne.
Qed.

Lemma popped_labels_subset (t u : string) (cs : list (string * list cell)) :
  u ∈ (filter (λ c, c.1 ≠ t) cs).*1 → u ∈ cs.*1.
Proof.
  intros (c & Hc & Hin)%list_elem_of_fmap.
  apply list_elem_of_filter in Hin as [_ Hin].
  apply list_elem_of_fmap. eauto.
Qed.

(** A target without a column makes the pops fail with [KeyError]. *)
Lemma pop_each_missing (tg : list string) (df : DataFrame cell) :
  (∃ t, t ∈ tg ∧ t ∉ frame_columns df) →
  ∃ u, u ∈ tg ∧ pop_each tg df = Raised (KeyError u).
Proof.
  revert df. induction tg as [|t0 tg IH]; intros df (t & Ht & Hmiss).
  - by apply elem_of_nil in Ht.
  - destruct (decide (t0 ∈ frame_columns df)) as [Hin|Hnot].
    + apply elem_of_cons in Ht as [->|Ht]; [done|].
      simpl. rewrite pop_present by done.
      destruct (IH {| df_rows := df_rows df;
                      df_cols := filter (λ c, c.1 ≠ t0) (df_cols df) |})
        as (u & Hu & Hrun).
      { exists t. split; [done|]. unfold frame_columns. cbn [df_cols].
        intros Hc. by apply Hmiss, (popped_labels_subset t0). }
      exists u. split; [by right|]. by rewrite Hrun.
    + exists t0. split; [left|]. simpl. by rewrite pop_absent.
Qed.

(** A target listed twice makes the pops fail with [KeyError], whatever
    the table holds. *)
Lemma pop_each_repeated (tg : list string) (df : DataFrame cell) :
  ¬ NoDup tg → ∃ u, u ∈ tg ∧ pop_each tg df = Raised (KeyError u).
Proof.
  revert df. induction tg as [|t0 tg IH]; intros df Hdup.
  - destruct Hdup. apply NoDup_nil_2.
  - destruct (decide (t0 ∈ frame_columns df)) as [Hin|Hnot].
    + simpl. rewrite pop_present by done.
      set (df' := {| df_rows := df_rows df;
                     df_cols := filter (λ c, c.1 ≠ t0) (df_cols df) |}).
      assert (∃ u, u ∈ tg ∧ pop_each tg df' = Raised (KeyError u))
        as (u & Hu & Hrun).
      { destruct (decide (NoDup tg)) as [Hnd|Hnd]; [|by apply IH].
        apply pop_each_missing. exists t0. split.
        - destruct (decide (t0 ∈ tg)) as [|Hn]; [done|].
          destruct Hdup. by apply NoDup_cons.
        - apply popped_label_gone. }
      exists u. split; [by right|]. by rewrite Hrun.
    + exists t0. split; [left|]. simpl. by rewrite pop_absent.
Qed.

(** A target list with a repeated name is never prepared: whatever the
    dataset, [_process_data] returns [None] and leaves the filesystem as
    it was (so [fit] and [evaluate] cannot go through). *)
Theorem repeated_target_never_prepared w tg :
  target (self w) = PList tg → ¬ NoDup tg →
  ∃ w' l, _process_data E w = (Returned None, w', l) ∧ files w' = files w.
Proof.
  intros Htg Hdup.
  destruct (_process_data E w) as [[r w'] l] eqn:H.
  unfold _process_data, bind, get_self in H. cbn in H. rewrite Htg in H.
  rewrite bool_decide_true in H.
  2:{ apply nonempty_length. intros ->. apply Hdup, NoDup_nil_2. }
  unfold_run H. run_cases H.
  all: try (eexists _, _; split; reflexivity).
  all: match goal with
       | Hp : pop_each ?t ?d = Returned _, Hd : ¬ NoDup ?t |- _ =>
           destruct (pop_each_repeated t d Hd) as (u & _ & Hu);
           congruence
       end.
Qed.

(** A target that is not a list, or an empty list, stops
    [_process_data] at its assertions: the exception is raised before
    the dataset is read, and nothing is logged or changed. *)
Theorem process_data_rejects_bad_target w :
  ((∀ tg, target (self w) ≠ PList tg) →
   _process_data E w
   = (Raised (AssertionError "provide target(s) as a list in the yaml file"),
      w, [])) ∧
  (target (self w) = PList [] →
   _process_data E w
   = (Raised (AssertionError "please provide at least a target to predict"),
      w, [])).
Proof.
  split.
  - intros Hnot. unfold _process_data, bind, get_self. cbn.
    destruct (target (self w)) as [| |tg] eqn:Ht; try reflexivity.
    by destruct (Hnot tg).
  - intros Ht. unfold _process_data, bind, get_self. cbn. by rewrite Ht.
Qed.

(** ** The constructor *)

(** Constructing the orchestrator only reads: whatever the command and
    the arguments, and whether it returns or raises, the filesystem is
    as it was. *)
Theorem construct_reads_only cmd (args : gmap string pyval) w r w' l :
  construct E cmd args w = (r, w', l) → files w' = files w.
Proof.
  intros H. unfold construct, __init__ in H.
  unfold_run H. run_cases H.
  all: reflexivity.
Qed.

(** The description written by a fit that goes through is read back by
    the constructor of any later command other than fit: the object gets
    the problem kind and the target columns of that fit, whatever the
    command-line arguments say. *)
Theorem description_round_trip args w p cmd (args' : gmap string pyval) :
  fit_ready E args (files w) p →
  cmd ≠ "fit" →
  ∃ w1 l1 w2 l2,
    run_fit E args w = (Returned tt, w1, l1) ∧
    construct E cmd args' w1 = (Returned tt, w2, l2) ∧
    target (self w2) = PList (plan_targets p) ∧
    model_type (self w2) = plan_type p ∧
    files w2 = files w1.
Proof.
  intros Hready Hcmd.
  destruct (run_fit_ok E args w p Hready) as [l1 Hfit].
  destruct (fit_description_lookup E (fitted_self E p) (fitted_model p))
    as (_ & Hty & _ & _ & _ & Htg).
  eexists _, l1, _, _. split; [exact Hfit|]. split.
  - apply construct_described; [done|]. apply stored_description.
  - cbn [self target model_type described_self files]. unfold dict_get.
    by rewrite Hty, Htg.
Qed.

End MoreProperties.

(** ** The further properties on the concrete instance *)

Lemma create_model_resolves_iff_witness :
  _create_model Sample.E (PStr "classification") (PStr "SVM") = Returned "SVC".
Proof.
  apply (create_model_resolves_iff Sample.E).
  exists "classification", "SVM", {[ "SVM" := "SVC" ]}.
  repeat split; by_evaluation.
Defined.



Lemma load_model_path_choice_witness :
  (∃ l, _load_model (PStr "/w/model_results/model.sav")
          (Sample.w_fitted Sample.E 2)
        = (Returned (Some {| est_class := "LinearRegression";
                             est_state := 2 |}),
           Sample.w_fitted Sample.E 2, l)) ∧
  (∃ l, _load_model (PStr "") (Sample.w_fitted Sample.E 2)
        = (Returned (Some {| est_class := "LinearRegression";
                             est_state := 2 |}),
           Sample.w_fitted Sample.E 2, l)).
Proof.
  destruct (load_model_path_choice (Sample.w_fitted Sample.E 2))
    as [Hgiven Hdef].
  split; [apply Hgiven|apply Hdef]; by_evaluation.
Defined.

Lemma save_then_load_round_trip_witness :
  ∃ (w1 : Sample.sworld) l2,
    files w1 !! results_dir Sample.E = Some Dir ∧
    files w1 !! model_file Sample.E
    = Some (Pickle {| est_class := "SVC"; est_state := 5 |}) ∧
    _load_model PNone w1
    = (Returned (Some {| est_class := "SVC"; est_state := 5 |}), w1, l2).
Proof.
  destruct (_save_model Sample.E {| est_class := "SVC"; est_state := 5 |}
              save_to Sample.w0) as [[r w1] l1] eqn:Hsave.
  assert (r = Returned (Some true)) as ->.
  { apply (f_equal (λ x, x.1.1)) in Hsave. vm_compute in Hsave. congruence. }
  destruct (save_then_load_round_trip Sample.E Sample.w0 _ w1 l1 Hsave)
    as (Hdir & Hmodel & l2 & Hload).
  by exists w1, l2.
Defined.

Lemma fit_results_path_is_file_raises_witness :
  ∃ w' l,
    fit Sample.E (Cases.on Cases.fs_results_file Cases.trainable)
    = (Raised (NotADirectoryError "/w/model_results/model.sav"), w', l) ∧
    files w' = Cases.fs_results_file.
Proof.
  apply (fit_results_path_is_file_raises Sample.E
           (Cases.on Cases.fs_results_file Cases.trainable)
           "LinearRegression" ["y2"; "y1"] Sample.data 2 (Csv Sample.data));
    first [by_evaluation | sample_trains].
Defined.

Lemma fit_description_failure_keeps_model_witness :
  ∃ w' l,
    fit Sample.E (Cases.on Cases.fs_description_dir Cases.trainable)
    = (Returned tt, w', l) ∧
    files w'
    = <["/w/model_results/model.sav"
          := Pickle {| est_class := "LinearRegression"; est_state := 2 |}]>
        Cases.fs_description_dir ∧
    files w' !! "/w/model_results/description.json" = Some Dir ∧
    LogEntry ERROR "Error while storing the fit description file"
      (Some (IsADirectoryError "/w/model_results/description.json")) ∈ l.
Proof.
  apply (fit_description_failure_keeps_model Sample.E
           (Cases.on Cases.fs_description_dir Cases.trainable)
           "LinearRegression" ["y2"; "y1"] Sample.data 2);
    first [by_evaluation | sample_trains].
Defined.

Lemma fit_training_failure_writes_nothing_witness :
  ∃ w' l,
    fit Cases.E_failing Cases.trainable
    = (Raised (CollaboratorError "singular matrix"), w', l) ∧
    files w' = Sample.fs0.
Proof.
  apply (fit_training_failure_writes_nothing Cases.E_failing Cases.trainable
           (PStr "LinearRegression") "LinearRegression" ["y2"; "y1"]
           "/w/data.csv" Sample.data);
    first [by_evaluation | apply Forall_forall; by_evaluation].
Defined.

Lemma fit_touches_only_artifacts_witness :
  ∃ w' l,
    fit Sample.E Cases.trainable = (Returned tt, w', l) ∧
    files w' !! "/w/data.csv" = Some (Csv Sample.data).
Proof.
  destruct (fit Sample.E Cases.trainable) as [[r w'] l] eqn:Hfit.
  assert (r = Returned tt) as ->.
  { apply (f_equal (λ x, x.1.1)) in Hfit. vm_compute in Hfit. congruence. }
  exists w', l. split; [done|].
  rewrite (fit_touches_only_artifacts Sample.E Cases.trainable _ w' l
             "/w/data.csv" Hfit); by_evaluation.
Defined.

Lemma evaluate_writes_metrics_witness :
  ∃ l,
    evaluate Sample.E tt (Sample.w_fitted Sample.E 2)
    = (Returned tt,
       {| self := set_features (Some ["x1"; "y1"; "x2"; "y2"])
                    (self (Sample.w_fitted Sample.E 2));
          files := <["/w/model_results/evaluation.json" := MetricsJson 0]>
                     (Sample.fs_fitted 2) |},
       l).
Proof.
  apply (evaluate_writes_metrics Sample.E (Sample.w_fitted Sample.E 2) tt
           {| est_class := "LinearRegression"; est_state := 2 |}
           ["y1"; "y2"] "/w/data.csv" Sample.data
           (Arr2 2 [[7; 7]; [7; 7]]%Z) 0);
    first [by_evaluation | apply Forall_forall; by_evaluation].
Defined.

Lemma evaluate_touches_only_evaluation_witness :
  ∃ w' l,
    evaluate Sample.E tt (Sample.w_fitted Sample.E 2)
    = (Returned tt, w', l) ∧
    files w' !! "/w/data.csv" = Some (Csv Sample.data) ∧
    files w' !! "/w/model_results/model.sav"
    = Some (Pickle {| est_class := "LinearRegression"; est_state := 2 |}).
Proof.
  destruct (evaluate_touches_only_evaluation Sample.E tt
              (Sample.w_fitted Sample.E 2)) as (w' & l & Hrun & Hframe).
  exists w', l. split; [exact Hrun|].
  split; (rewrite Hframe; by_evaluation).
Defined.

Lemma predict_writes_table_or_nothing_witness :
  (∃ w' l,
     predict Sample.E Sample.w0 = (Returned tt, w', l) ∧
     (files w' = Sample.fs0
      ∨ ∃ pf, files w'
              = <["/w/model_results/predictions.csv" := CsvIndexed pf]>
                  Sample.fs0)) ∧
  ∃ e w1 l1,
    predict_body Sample.E Sample.w0 = (Raised e, w1, l1) ∧
    files w1 = Sample.fs0.
Proof.
  destruct (predict_writes_table_or_nothing Sample.E Sample.w0)
    as [Hrun Hfail].
  split; [exact Hrun|].
  destruct (predict_body Sample.E Sample.w0) as [[r w1] l1] eqn:Hbody.
  assert (∃ e, r = Raised e) as [e ->].
  { apply (f_equal (λ x, x.1.1)) in Hbody. vm_compute in Hbody.
    rewrite <- Hbody. eauto. }
  exists e, w1, l1. split; [done|]. by apply (Hfail e w1 l1).
Defined.

Lemma predict_too_few_columns_witness :
  ∃ l,
    predict Sample.E (Sample.w_fitted Sample.E 1)
    = (Returned tt, Sample.w_fitted Sample.E 1,
       (l ++ [LogEntry ERROR "Error while preparing predictions"
                (Some IndexError)])%list).
Proof.
  apply (predict_too_few_columns Sample.E (Sample.w_fitted Sample.E 1)
           {| est_class := "LinearRegression"; est_state := 1 |}
           Sample.data (Arr1 [7; 7]%Z) ["y1"; "y2"] 2 [[7; 7]%Z]);
    try by_evaluation.
  repeat split; try by_evaluation.
  exists "/w/data.csv". split; by_evaluation.
Defined.

Lemma predict_unreadable_data_witness :
  predict Sample.E Cases.w_no_data
  = (Returned tt, Cases.w_no_data,
     [LogEntry INFO "result path | saved to" None;
      LogEntry INFO "loading model form" None;
      LogEntry ERROR "exception while preparing prediction data"
        (Some (FileNotFoundError "/w/none.csv"));
      LogEntry ERROR "Error while preparing predictions"
        (Some (ValueError "expected an array"))]).
Proof.
  apply (predict_unreadable_data Sample.E Cases.w_no_data
           {| est_class := "LinearRegression"; est_state := 2 |}
           "/w/none.csv"); by_evaluation.
Defined.

Lemma predictions_labels_distinct_witness :
  NoDup (frame_columns
           (from_dict [("y1", [7; 7]%Z)])).
Proof.
  apply (predictions_labels_distinct (PList ["y1"; "y1"])
           (Arr2 2 [[1; 2]; [7; 7]]%Z)).
  by_evaluation.
Defined.

Lemma repeated_target_never_prepared_witness :
  ∃ w' l,
    _process_data Sample.E
      (Sample.configured Sample.E "regression" ["y1"; "x1"; "y1"]
         "LinearRegression")
    = (Returned None, w', l) ∧
    files w' = Sample.fs0.
Proof.
  apply (repeated_target_never_prepared Sample.E
           (Sample.configured Sample.E "regression" ["y1"; "x1"; "y1"]
              "LinearRegression")
           ["y1"; "x1"; "y1"]); by_evaluation.
Defined.

Lemma process_data_rejects_bad_target_witness :
  _process_data Sample.E Sample.w0
  = (Raised (AssertionError "provide target(s) as a list in the yaml file"),
     Sample.w0, []) ∧
  _process_data Sample.E
    (Sample.configured Sample.E "regression" [] "LinearRegression")
  = (Raised (AssertionError "please provide at least a target to predict"),
     Sample.configured Sample.E "regression" [] "LinearRegression", []).
Proof.
  split.
  - apply (process_data_rejects_bad_target Sample.E Sample.w0).
    intros tg. by_evaluation.
  - apply (process_data_rejects_bad_target Sample.E
             (Sample.configured Sample.E "regression" []
                "LinearRegression")).
    by_evaluation.
Defined.

Lemma construct_reads_only_witness :
  ∃ r w' l,
    construct Sample.E "fit" Sample.args1 Sample.w0 = (r, w', l) ∧
    files w' = Sample.fs0.
Proof.
  destruct (construct Sample.E "fit" Sample.args1 Sample.w0)
    as [[r w'] l] eqn:Hc.
  exists r, w', l. split; [done|].
  exact (construct_reads_only Sample.E "fit" Sample.args1 Sample.w0 r w' l
           Hc).
Defined.

Lemma description_round_trip_witness :
  ∃ w1 l1 w2 l2,
    run_fit Sample.E Sample.args1 Sample.w0 = (Returned tt, w1, l1) ∧
    construct Sample.E "evaluate" ∅ w1 = (Returned tt, w2, l2) ∧
    target (self w2) = PList ["y2"; "y1"] ∧
    model_type (self w2) = PStr "regression" ∧
    files w2 = files w1.
Proof.
  apply (description_round_trip Sample.E Sample.args1 Sample.w0 Sample.plan1
           "evaluate" ∅); first [by_evaluation | sample_ready].
Defined.
